(** * EliteFarmers/Tools: farming fortune and crop yield calculations

    A shallow embedding of [src/util/ratecalc.ts], [src/constants/crops.ts]
    and the [FarmingTool] class, with the properties of the specification
    stated over it.

    JavaScript numbers are IEEE 754 binary64 values, so they are modelled
    by Rocq's primitive floats: [+], [-], [*], [/] and the comparisons are
    the very operations the interpreter performs, including the infinities
    and NaN produced by a division by zero.  Objects used as ordered
    string-keyed records ([Record<string, number>]) are association lists
    in insertion order; lookup tables are finite maps, and a lookup under
    a string that comes from the item also finds the names every object
    inherits from its prototype ([lookupObject]). *)

From Stdlib Require Import ZArith QArith Qround Floats Uint63.
From stdpp Require Import base option list strings gmap.

Set Warnings "-inexact-float".
Local Open Scope float_scope.

(** ** JavaScript numbers *)

Module JS.

Abbreviation number := float.

(** Exact conversion of an integer below 2^53 in magnitude. *)
Definition of_Z (z : Z) : number :=
  match z with
  | Z0 => 0
  | Zpos _ => PrimFloat.of_uint63 (Uint63.of_Z z)
  | Zneg p => - PrimFloat.of_uint63 (Uint63.of_Z (Zpos p))
  end.

(** [Math.round]: the nearest integer, ties towards +infinity.  A finite
    value is [n / 2^k]; when it has a fractional part the result is the
    exact integer [floor ((2n + 2^k) / 2^(k+1))].  NaN, the infinities,
    the zeros and values that are already integers are returned as they
    are, and a zero result keeps the sign of the argument. *)
Definition Math_round (x : number) : number :=
  match Prim2SF x with
  | S754_finite s m e =>
      if (0 <=? e)%Z then x
      else
        let n := if s then Zneg m else Zpos m in
        let d := (2 ^ (- e))%Z in
        let r := ((2 * n + d) `div` (2 * d))%Z in
        if (r =? 0)%Z then (if s then neg_zero else 0) else of_Z r
  | _ => x
  end.

(** [Math.ceil]: the least integer not below the argument. *)
Definition Math_ceil (x : number) : number :=
  match Prim2SF x with
  | S754_finite s m e =>
      if (0 <=? e)%Z then x
      else
        let n := if s then Zneg m else Zpos m in
        let d := (2 ^ (- e))%Z in
        let r := (- ((- n) `div` d))%Z in
        if (r =? 0)%Z then (if s then neg_zero else 0) else of_Z r
  | _ => x
  end.

Definition isNaN (x : number) : bool := PrimFloat.is_nan x.

(** Truthiness of a number: everything except the zeros and NaN. *)
Definition truthy (x : number) : bool := negb ((x =? 0) || isNaN x).

(** Truthiness of [number | undefined]. *)
Definition truthy_opt (x : option number) : bool :=
  match x with Some v => truthy v | None => false end.

(** The nullish coalescing operator [a ?? b]. *)
Definition nullish {A} (a : option A) (b : A) : A := default b a.

(** *** Ordered records

    An object literal that is filled by assignments [o[k] = v] keeps its
    keys in the order of their first assignment; assigning to a key that
    is already present replaces the value in place.  (All keys used by
    the modelled code are names, none is an array index.) *)

Definition record (A : Type) := list (string * A).

Fixpoint get {A} (k : string) (o : record A) : option A :=
  match o with
  | [] => None
  | (k', v) :: o' => if decide (k = k') then Some v else get k o'
  end.

Fixpoint set {A} (k : string) (v : A) (o : record A) : record A :=
  match o with
  | [] => [(k, v)]
  | (k', v') :: o' =>
      if decide (k = k') then (k, v) :: o' else (k', v') :: set k v o'
  end.

(** [delete o[k]] *)
Fixpoint remove {A} (k : string) (o : record A) : record A :=
  match o with
  | [] => []
  | (k', v) :: o' =>
      if decide (k = k') then remove k o' else (k', v) :: remove k o'
  end.

(** [k in o] *)
Definition has {A} (k : string) (o : record A) : bool :=
  bool_decide (is_Some (get k o)).

Definition keys {A} (o : record A) : list string := o.*1.

(** [Object.values(o)] *)
Definition values {A} (o : record A) : list A := o.*2.

(** [Object.entries(o)] *)
Definition entries {A} (o : record A) : list (string * A) := o.

(** [xs.reduce((a, b) => a + b, 0)] *)
Definition sum (xs : list number) : number :=
  fold_left (fun a b => a + b) xs 0.

(** *** Property lookup on a plain object

    [o[key]] on an object literal finds the object's own properties and,
    failing that, the properties every object inherits from
    [Object.prototype]: its methods, and under ["__proto__"] the
    prototype itself.  Each of them is an object, so it is truthy and is
    not [undefined]. *)

Definition ObjectPrototype : list string :=
  ["constructor"; "__defineGetter__"; "__defineSetter__"; "hasOwnProperty";
   "__lookupGetter__"; "__lookupSetter__"; "isPrototypeOf";
   "propertyIsEnumerable"; "toString"; "valueOf"; "__proto__";
   "toLocaleString"].

Inductive property (A : Type) :=
| Own (a : A)
| Inherited (key : string).

Arguments Own {A} a.
Arguments Inherited {A} key.

(** [o[key]]; the same keys pass [key in o]. *)
Definition lookupObject {A} (o : gmap string A) (key : string) : option (property A) :=
  match o !! key with
  | Some a => Some (Own a)
  | None => if decide (key ∈ ObjectPrototype) then Some (Inherited key) else None
  end.

(** The [name] property of an inherited value: [Object] is the
    constructor, a method is named after its key, and the prototype
    object has no name. *)
Definition inheritedName (key : string) : option string :=
  if decide (key = "constructor") then Some "Object"
  else if decide (key = "__proto__") then None
  else Some key.

End JS.

Import JS.

(** ** Crop table ([src/constants/crops.ts]) *)

Inductive Crop :=
| Cactus | Carrot | CocoaBeans | Melon | Mushroom | NetherWart
| Potato | Pumpkin | SugarCane | Wheat | Seeds.

#[global] Instance Crop_eq_dec : EqDecision Crop.
Proof. solve_decision. Defined.

Definition Crop_code (c : Crop) : nat :=
  match c with
  | Cactus => 0 | Carrot => 1 | CocoaBeans => 2 | Melon => 3
  | Mushroom => 4 | NetherWart => 5 | Potato => 6 | Pumpkin => 7
  | SugarCane => 8 | Wheat => 9 | Seeds => 10
  end%nat.

Definition Crop_decode (n : nat) : Crop :=
  match n with
  | 0 => Cactus | 1 => Carrot | 2 => CocoaBeans | 3 => Melon
  | 4 => Mushroom | 5 => NetherWart | 6 => Potato | 7 => Pumpkin
  | 8 => SugarCane | 9 => Wheat | _ => Seeds
  end%nat.

#[global] Program Instance Crop_countable : Countable Crop :=
  inj_countable' Crop_code Crop_decode _.
Next Obligation. by intros []. Qed.

(** The [CropInfo] interface has exactly these three properties. *)
Record CropInfo := {
  crop_name : string;
  crop_npc : number;
  crop_drops : number;
}.

Definition CROP_INFO (c : Crop) : CropInfo :=
  match c with
  | Cactus => {| crop_name := "Cactus"; crop_npc := 3; crop_drops := 2 |}
  | Carrot => {| crop_name := "Carrot"; crop_npc := 3; crop_drops := 3 |}
  | CocoaBeans => {| crop_name := "Cocoa Beans"; crop_npc := 3; crop_drops := 3 |}
  | Melon => {| crop_name := "Melon"; crop_npc := 2; crop_drops := 5 |}
  | Mushroom => {| crop_name := "Mushroom"; crop_npc := 10; crop_drops := 1 |}
  | NetherWart => {| crop_name := "Nether Wart"; crop_npc := 4; crop_drops := 2.5 |}
  | Potato => {| crop_name := "Potato"; crop_npc := 3; crop_drops := 3 |}
  | Pumpkin => {| crop_name := "Pumpkin"; crop_npc := 10; crop_drops := 1 |}
  | SugarCane => {| crop_name := "Sugar Cane"; crop_npc := 2; crop_drops := 4 |}
  | Wheat => {| crop_name := "Wheat"; crop_npc := 6; crop_drops := 1 |}
  | Seeds => {| crop_name := "Seeds"; crop_npc := 3; crop_drops := 1.5 |}
  end.

(** [ratecalc.ts] destructures [breaks] and [replenish] out of a crop's
    entry.  No entry of [CROP_INFO] has such a property, so both reads
    give [undefined]. *)
Definition CropInfo_breaks (i : CropInfo) : option number := None.
Definition CropInfo_replenish (i : CropInfo) : option bool := None.

(** ** Imported tables and helpers

    [ratecalc.ts] and the [FarmingTool] class import their balance tables
    and a few helpers from modules outside this development
    ([constants/reforges], [constants/tools], [constants/enchants],
    [crops/melon], [crops/pumpkin], [crops/special], [util/itemstats],
    [util/lore]) and [MAX_CROP_FORTUNE] from the crop constants.  They are
    parameters of the model, collected in one environment.  The members of
    the string enumerations [Rarity], [Stat] and [FarmingToolType] are
    property keys at run time and are represented by strings. *)

Abbreviation Rarity := string.
Abbreviation Stat := string.
Abbreviation Stats := (gmap string number).

Record FarmingToolInfo := {
  tool_crop : option Crop;
  tool_type : option string;
  baseStats : option Stats;
  stats : option (gmap string Stats);
  maxRarity : option Rarity;
}.

Record ReforgeTier := {
  tier_stats : option Stats;
}.

Record Reforge := {
  reforge_name : option string;
  tiers : gmap string ReforgeTier;
}.

Record FarmingEnchant := {
  enchant_name : string;
  levels : option (number -> option Stats);
  multipliedLevels : option (number -> option Stats);
}.

(** The result of [CalculateAverageSpecialCrops]. *)
(** What the class can read off a value found under an inherited name:
    a function, or the prototype object, has no [crop], [type],
    [baseStats] or [stats] property, and no [tiers]. *)
Definition inheritedTool : FarmingToolInfo :=
  {| tool_crop := None; tool_type := None; baseStats := None;
     stats := None; maxRarity := None |}.

Definition inheritedReforge (key : string) : Reforge :=
  {| reforge_name := inheritedName key; tiers := ∅ |}.

Definition toolOf (found : property FarmingToolInfo) : FarmingToolInfo :=
  match found with Own info => info | Inherited _ => inheritedTool end.

Definition reforgeOf (found : property Reforge) : Reforge :=
  match found with Own r => r | Inherited key => inheritedReforge key end.

Record SpecialCrops := {
  sc_type : string;
  sc_amount : number;
  sc_npc : number;
}.

Record Env := {
  MAX_CROP_FORTUNE : gmap Crop number;
  BEST_FARMING_TOOLS : gmap Crop FarmingToolInfo;
  REFORGES : gmap string Reforge;
  FARMING_TOOLS : gmap string FarmingToolInfo;
  TURBO_ENCHANTS : gmap string Crop;
  TURBO_ENCHANT_FORTUNE : number;
  FARMING_ENCHANTS : gmap string FarmingEnchant;
  Rarity_Mythic : Rarity;
  Stat_FarmingFortune : Stat;
  FarmingToolType_MathematicalHoe : string;
  CalculateMelonPerkBonus : number -> number;
  CalculatePumpkinPerkBonus : number -> number;
  CalculateAverageSpecialCrops : number -> Crop -> number -> SpecialCrops;
  GetRarityFromLore : list string -> Rarity;
  (** applied to [this.rarity], which is [undefined] for an item without
      lore *)
  PreviousRarity : option Rarity -> option Rarity;
  (** [ExtractNumberFromLine(line, regex)] at the one pattern the class
      passes *)
  ExtractNumberFromLine : string -> option number;
  (** the unary [+] applied to an attribute string *)
  ToNumber : string -> number;
}.

(** [row?.[Stat.FarmingFortune] ?? 0] *)
Definition farmingFortuneOf (E : Env) (row : option Stats) : number :=
  nullish (row ≫= (.!! Stat_FarmingFortune E)) 0.

(** ** Yield model ([src/util/ratecalc.ts]) *)

Definition crops : list Crop :=
  [Cactus; Carrot; CocoaBeans; Melon; Mushroom; NetherWart;
   Potato; Pumpkin; SugarCane; Wheat; Seeds].

Record CalculateDropsOptions := {
  farmingFortune : option number;
  blocksBroken : number;
}.

Record CalculateDetailedDropsOptions := {
  d_farmingFortune : option number;
  d_blocksBroken : number;
  bountiful : bool;
  mooshroom : bool;
}.

Record DetailedDrops := {
  collection : number;
  npcCoins : number;
  fortune : number;
  coinSources : record number;
  otherCollection : record number;
}.

Definition GetCropInfo (crop : Crop) : CropInfo := CROP_INFO crop.

Definition CalculateExpectedDrops (E : Env)
    (crop : Crop) (options : CalculateDropsOptions) : number :=
  let blocksBroken := blocksBroken options in
  let fortune :=
    nullish (farmingFortune options) (nullish (MAX_CROP_FORTUNE E !! crop) 0) in
  if (fortune <=? 0) || (blocksBroken <? 0) then 0 else
  let drops := crop_drops (GetCropInfo crop) in
  if negb (truthy drops) then 0 else
  let baseDrops := blocksBroken * drops * ((fortune + 100) * 0.01) in
  match crop with
  | Cactus | Wheat | Mushroom | SugarCane =>
      Math_round baseDrops
  | Carrot | CocoaBeans | NetherWart | Potato | Seeds =>
      Math_round (baseDrops - blocksBroken)
  | Pumpkin =>
      Math_round (baseDrops + CalculatePumpkinPerkBonus E blocksBroken)
  | Melon =>
      Math_round (baseDrops + CalculateMelonPerkBonus E blocksBroken)
  end.

Definition CalculateAverageDrops (E : Env)
    (options : CalculateDropsOptions) : gmap Crop number :=
  fold_left
    (fun result crop => <[crop := CalculateExpectedDrops E crop options]> result)
    crops ∅.

(** The fortune of the max-rarity tier of a reforge:
    [REFORGES.id?.tiers[maxRarity]?.stats?.[Stat.FarmingFortune] ?? 0]. *)
Definition reforgeFortune (E : Env) (id : string) (maxRarity : Rarity) : number :=
  farmingFortuneOf E
    (REFORGES E !! id ≫= fun r => tiers r !! maxRarity ≫= tier_stats).

Definition CalculateDetailedDrops (E : Env)
    (crop : Crop) (options : CalculateDetailedDropsOptions) : DetailedDrops :=
  let result :=
    {| collection := 0; npcCoins := 0; fortune := 0;
       coinSources := []; otherCollection := [] |} in
  let farmingFortune := d_farmingFortune options in
  let blocksBroken := d_blocksBroken options in
  let fortune :=
    nullish farmingFortune (nullish (MAX_CROP_FORTUNE E !! crop) 0) in
  if (fortune <=? 0) || (blocksBroken <? 0) then result else
  let fortune :=
    if negb (bountiful options) && negb (truthy_opt farmingFortune) then
      let maxRarity :=
        nullish (BEST_FARMING_TOOLS E !! crop ≫= maxRarity) (Rarity_Mythic E) in
      let bountifulFortune := reforgeFortune E "bountiful" maxRarity in
      let blessedFortune := reforgeFortune E "blessed" maxRarity in
      fortune + (blessedFortune - bountifulFortune)
    else fortune in
  let info := GetCropInfo crop in
  let drops := crop_drops info in
  let npc := crop_npc info in
  let breaks := nullish (CropInfo_breaks info) 1 in
  let replenish := nullish (CropInfo_replenish info) false in
  if negb (truthy drops) then
    {| collection := 0; npcCoins := 0; fortune := fortune;
       coinSources := []; otherCollection := [] |}
  else
  let baseDrops := blocksBroken * drops * ((fortune + 100) * 0.01) in
  let otherCollection := set "Normal" (Math_round baseDrops) [] in
  let coinSources := [] in
  let coinSources :=
    if bountiful options
    then set "Bountiful" (Math_round (baseDrops * 0.2)) coinSources
    else coinSources in
  let '(coinSources, otherCollection) :=
    if mooshroom options then
      let mushroomDrops := Math_round (blocksBroken * breaks) in
      (set "Mooshroom" (mushroomDrops * crop_npc (CROP_INFO Mushroom)) coinSources,
       set "Mushroom" mushroomDrops otherCollection)
    else (coinSources, otherCollection) in
  let armorPieces := if decide (crop = Cactus) then 3 else 4 in
  let specialCrops := CalculateAverageSpecialCrops E blocksBroken crop armorPieces in
  let otherCollection :=
    set (sc_type specialCrops) (Math_round (sc_amount specialCrops)) otherCollection in
  let coinSources :=
    set (sc_type specialCrops) (Math_round (sc_npc specialCrops)) coinSources in
  let '(coinSources, otherCollection, collection) :=
    match crop with
    | Pumpkin =>
        let extraDrops := Math_round (CalculatePumpkinPerkBonus E blocksBroken) in
        let coinSources := set "Dicer RNG" (Math_round (extraDrops * npc)) coinSources in
        let coinSources := set "Collection" (Math_round (baseDrops * npc)) coinSources in
        let otherCollection := set "RNG Pumpkin" (Math_round extraDrops) otherCollection in
        (coinSources, otherCollection, Math_round (baseDrops + extraDrops))
    | Melon =>
        let extraDrops := Math_round (CalculateMelonPerkBonus E blocksBroken) in
        let coinSources := set "Dicer RNG" (Math_round (extraDrops * npc)) coinSources in
        let coinSources := set "Collection" (Math_round (baseDrops * npc)) coinSources in
        let otherCollection := set "RNG Melon" (Math_round extraDrops) otherCollection in
        (coinSources, otherCollection, Math_round (baseDrops + extraDrops))
    | _ =>
        if replenish then
          let coinSources :=
            set "Collection"
              (Math_round ((baseDrops - blocksBroken * breaks) * npc)) coinSources in
          let otherCollection :=
            set "Replenish" (- Math_round (blocksBroken * breaks)) otherCollection in
          (coinSources, otherCollection, Math_round baseDrops)
        else
          let coinSources := set "Collection" (Math_round (baseDrops * npc)) coinSources in
          (coinSources, otherCollection, Math_round baseDrops)
    end in
  {| collection := collection;
     npcCoins := sum (values coinSources);
     fortune := fortune;
     coinSources := coinSources;
     otherCollection := otherCollection |}.

(** [CalculateDetailedAverageDrops], in its three stages.  Reading
    [result[crop]] of an absent key gives [undefined], and the property
    access that follows would raise a [TypeError]: that is [None]. *)

Definition detailedPerCrop (E : Env)
    (options : CalculateDetailedDropsOptions) : gmap Crop DetailedDrops :=
  fold_left
    (fun result crop => <[crop := CalculateDetailedDrops E crop options]> result)
    crops ∅.

(** "Combine seeds into wheat" *)
Definition combineSeeds (options : CalculateDetailedDropsOptions)
    (result : gmap Crop DetailedDrops) : option (gmap Crop DetailedDrops) :=
  wheat ← result !! Wheat;
  seeds ← result !! Seeds;
  let seedCollection := collection seeds - d_blocksBroken options in
  let wheatOther := set "Seeds" seedCollection (otherCollection wheat) in
  let wheatCoins :=
    set "Seeds" (seedCollection * crop_npc (CROP_INFO Seeds)) (coinSources wheat) in
  let wheatCoins :=
    if bountiful options
    then set "Bountiful (Seeds)"
           (nullish (get "Bountiful" (coinSources seeds)) 0) wheatCoins
    else wheatCoins in
  Some (<[Wheat :=
           {| collection := collection wheat;
              npcCoins := sum (values wheatCoins);
              fortune := fortune wheat;
              coinSources := wheatCoins;
              otherCollection := wheatOther |}]> result).

(** "Count mooshroom mushrooms as normal mushroom collection" *)
Definition countMooshroom (options : CalculateDetailedDropsOptions)
    (result : gmap Crop DetailedDrops) : option (gmap Crop DetailedDrops) :=
  if mooshroom options then
    mushroom ← result !! Mushroom;
    let mooshroom := nullish (get "Mushroom" (otherCollection mushroom)) 0 in
    Some (<[Mushroom :=
             {| collection := collection mushroom + mooshroom;
                npcCoins := npcCoins mushroom;
                fortune := fortune mushroom;
                coinSources := coinSources mushroom;
                otherCollection :=
                  remove "Mushroom"
                    (set "Mooshroom" mooshroom (otherCollection mushroom)) |}]>
            result)
  else Some result.

Definition CalculateDetailedAverageDrops (E : Env)
    (options : CalculateDetailedDropsOptions) : option (gmap Crop DetailedDrops) :=
  combineSeeds options (detailedPerCrop E options) ≫= countMooshroom options.

Record FortuneRequiredCalculatorOptions := {
  r_blocksBroken : number;
  r_crop : Crop;
  r_collection : number;
  useDicers : option bool;
  useMooshroom : option bool;
}.

Definition GetFortuneRequiredForCollection (E : Env)
    (options : FortuneRequiredCalculatorOptions) : number :=
  let blocksBroken := r_blocksBroken options in
  let crop := r_crop options in
  let collection := r_collection options in
  let drops := crop_drops (GetCropInfo crop) in
  let collection :=
    if nullish (useDicers options) false then
      match crop with
      | Pumpkin => collection - CalculatePumpkinPerkBonus E blocksBroken
      | Melon => collection - CalculateMelonPerkBonus E blocksBroken
      | _ => collection
      end
    else collection in
  let collection :=
    if nullish (useMooshroom options) false && bool_decide (crop = Mushroom)
    then collection - blocksBroken
    else collection in
  let fortune := (collection * 100) / (drops * blocksBroken) - 100 in
  Math_ceil fortune.

Definition GetNPCProfit (crop : Crop) (amount : number) : number :=
  let npc := crop_npc (GetCropInfo crop) in
  if negb (truthy npc) then 0 else npc * amount.

(** ** Fortune aggregator (the [FarmingTool] class) *)

Record Item := {
  skyblockId : option string;
  item_name : option string;
  lore : option (list string);
  enchantments : option (record number);
  attributes : option (gmap string string);
}.

Record PlayerOptions := {
  milestones : option (gmap Crop number);
}.

(** The state of a [FarmingTool] object once [rebuildTool] has run. *)
Record FarmingTool := {
  item : Item;
  crop : option Crop;
  tool : FarmingToolInfo;
  rarity : option Rarity;
  counter : option number;
  cultivating : number;
  reforge : option Reforge;
  reforgeStats : option ReforgeTier;
  farmingForDummies : number;
  recombobulated : bool;
  fortune_total : number;
  fortuneBreakdown : record number;
  options : option PlayerOptions;
}.

(** [throw new Error(`Unknown farming tool: ...`)] *)
Inductive Error :=
| UnknownTool (name : option string) (skyblockId : option string).

(** [item.attributes?.key] *)
Definition attribute (item : Item) (key : string) : option string :=
  attributes item ≫= (.!! key).

(** [+(item.attributes?.key ?? 0)] *)
Definition numericAttribute (E : Env) (item : Item) (key : string) : number :=
  match attribute item key with
  | Some s => ToNumber E s
  | None => 0
  end.

Definition getCounter (E : Env) (item : Item) : option number :=
  let counter := numericAttribute E item "mined_crops" in
  if truthy counter && negb (isNaN counter) then Some counter else None.

Definition getCultivating (E : Env) (item : Item) : option number :=
  let cultivating := numericAttribute E item "farmed_cultivating" in
  if truthy cultivating && negb (isNaN cultivating) then Some cultivating else None.

Definition getFarmingAbilityFortune (E : Env) (item : Item) : number :=
  fold_left
    (fun fortune line => fortune + nullish (ExtractNumberFromLine E line) 0)
    (nullish (lore item) []) 0.

(** The aggregation state: [this.fortuneBreakdown] and the local [sum]. *)
Definition tally : Type := record number * number.

(** The pair of statements [this.fortuneBreakdown[label] = v; sum += v]. *)
Definition contribute (label : string) (v : number) (st : tally) : tally :=
  (set label v st.1, st.2 + v).

(** [this.tool.stats?.[baseRarity]?.[Stat.FarmingFortune] ?? 0], where
    [baseRarity] is the previous rarity for a recombobulated item. *)
Definition rarityStats (E : Env) (tool : FarmingToolInfo)
    (rarity : option Rarity) (recombobulated : bool) : number :=
  let baseRarity := if recombobulated then PreviousRarity E rarity else rarity in
  farmingFortuneOf E (stats tool ≫= fun s => baseRarity ≫= (s !!.)).

(** One iteration of the loop over [Object.entries(item.enchantments)]. *)
Definition enchantStep (E : Env) (crop : option Crop)
    (st : tally) (entry : string * number) : tally :=
  let '(enchant, level) := entry in
  if negb (truthy level) then st else
  match lookupObject (TURBO_ENCHANTS E) enchant with
  | Some (Own matchingCrop) =>
      if decide (crop = Some matchingCrop)
      then contribute "Turbo" (TURBO_ENCHANT_FORTUNE E * level) st
      else st
  | Some (Inherited _) => st (* in the table, but no crop: never the tool's *)
  | None =>
      match lookupObject (FARMING_ENCHANTS E) enchant with
      | None => st
      | Some (Inherited _) => st (* no [levels]: the fortune is 0 *)
      | Some (Own enchantment) =>
          let fortune :=
            farmingFortuneOf E (levels enchantment ≫= fun l : number -> option Stats => l level) in
          if 0 <? fortune then contribute (enchant_name enchantment) fortune st
          else st
      end
  end.

(** The milestone-scaled dedication bonus that closes [sumFortune]. *)
Definition dedicationStep (E : Env) (crop : option Crop) (item : Item)
    (options : option PlayerOptions) (st : tally) : tally :=
  let milestone :=
    nullish (crop ≫= fun c => (options ≫= milestones) ≫= (.!! c)) 0 in
  let enchantments := nullish (enchantments item) [] in
  if truthy milestone && has "dedication" enchantments then
    match get "dedication" enchantments, FARMING_ENCHANTS E !! "dedication" with
    | Some level, Some enchantment =>
        if truthy level then
          let multiplier :=
            farmingFortuneOf E (multipliedLevels enchantment ≫=
               fun l : number -> option Stats => l level) in
          if (0 <? multiplier) && negb (isNaN milestone)
          then contribute (enchant_name enchantment) (multiplier * milestone) st
          else st
        else st
    | _, _ => st
    end
  else st.

(** [sumFortune] up to the enchantment loop: the sources that do not
    depend on the enchantments. *)
Definition fixedSources (E : Env) (item : Item) (tool : FarmingToolInfo)
    (rarity : option Rarity) (reforge : option Reforge)
    (reforgeStats : option ReforgeTier) (farmingForDummies : number)
    (recombobulated : bool) : tally :=
  let st : tally := ([], 0) in
  (* Base fortune *)
  let base := farmingFortuneOf E (baseStats tool) in
  let st := if 0 <? base then contribute "Tool Bonus" base st else st in
  (* Tool rarity stats *)
  let rarityStats := rarityStats E tool rarity recombobulated in
  let st := if 0 <? rarityStats then contribute "Tool Stats" rarityStats st else st in
  (* Reforge stats *)
  let reforgeFortune := farmingFortuneOf E (reforgeStats ≫= tier_stats) in
  let st :=
    if 0 <? reforgeFortune
    then contribute (nullish (reforge ≫= reforge_name) "Reforge") reforgeFortune st
    else st in
  (* Farming for Dummies *)
  let st :=
    if 0 <? farmingForDummies
    then contribute "Farming for Dummies" farmingForDummies st
    else st in
  (* Collection analysis and digit bonuses *)
  if decide (tool_type tool = Some (FarmingToolType_MathematicalHoe E)) then
    let ability := getFarmingAbilityFortune E item in
    if 0 <? ability then contribute "Tool Ability" ability st else st
  else st.

Definition sumFortune (E : Env) (item : Item) (tool : FarmingToolInfo)
    (rarity : option Rarity) (reforge : option Reforge)
    (reforgeStats : option ReforgeTier) (farmingForDummies : number)
    (recombobulated : bool) (options : option PlayerOptions) : tally :=
  let crop := tool_crop tool in
  let st :=
    fixedSources E item tool rarity reforge reforgeStats
      farmingForDummies recombobulated in
  (* Enchantments *)
  let st :=
    fold_left (enchantStep E crop) (entries (nullish (enchantments item) [])) st in
  dedicationStep E crop item options st.

(** [rebuildTool] runs on an object: [self] is that object before the
    call, [None] for the fresh object the constructor passes, whose fields
    are all unset.  Every field is assigned anew except [rarity], which
    an item without lore leaves as it was.  The tool found under the
    identifier may be an inherited value (see [lookupObject]): it is
    truthy, so nothing is thrown.  An item without identifier reads the
    key "undefined", which no tool table has and no object inherits: the
    lookup finds nothing.  When the method does throw, only [options] and
    [item] have been assigned; the model returns the error alone. *)
Definition rebuildTool (E : Env) (self : option FarmingTool) (item : Item)
    (options : option PlayerOptions) : Error + FarmingTool :=
  match skyblockId item ≫= lookupObject (FARMING_TOOLS E) with
  | None => inl (UnknownTool (item_name item) (skyblockId item))
  | Some found =>
      let tool := toolOf found in
      let rarity :=
        match lore item with
        | Some lore => Some (GetRarityFromLore E lore)
        | None => self ≫= rarity
        end in
      let counter := getCounter E item in
      let cultivating := nullish (getCultivating E item) 0 in
      (* setReforge(item.attributes?.modifier ?? '') *)
      let reforge :=
        reforgeOf <$>
          lookupObject (REFORGES E) (nullish (attribute item "modifier") "") in
      let reforgeStats := reforge ≫= fun r => rarity ≫= (tiers r !!.) in
      let farmingForDummies := numericAttribute E item "farming_for_dummies_count" in
      let recombobulated :=
        bool_decide (attribute item "rarity_upgrades" = Some "1") in
      let st :=
        sumFortune E item tool rarity reforge reforgeStats
          farmingForDummies recombobulated options in
      inr {| item := item; crop := tool_crop tool; tool := tool;
             rarity := rarity; counter := counter; cultivating := cultivating;
             reforge := reforge; reforgeStats := reforgeStats;
             farmingForDummies := farmingForDummies;
             recombobulated := recombobulated;
             fortune_total := st.2; fortuneBreakdown := st.1;
             options := options |}
  end.

(** [new FarmingTool(item, options)] *)
Definition FarmingTool_new (E : Env) (item : Item)
    (options : option PlayerOptions) : Error + FarmingTool :=
  rebuildTool E None item options.

Definition IsValidFarmingTool (E : Env) (item : Item) : bool :=
  bool_decide (is_Some (skyblockId item ≫= lookupObject (FARMING_TOOLS E))).

(** [FarmingTool.isValid(item)] *)
Definition FarmingTool_isValid (E : Env) (item : Item) : bool :=
  IsValidFarmingTool E item.

(** [getCultivatingLevel()]: [this.item.enchantments?.cultivating ?? 0] *)
Definition getCultivatingLevel (t : FarmingTool) : number :=
  nullish (enchantments (item t) ≫= get "cultivating") 0.

(** The [farmed] getter: [this.counter ?? this.cultivating ?? 0]. *)
Definition farmed (t : FarmingTool) : number :=
  nullish (counter t) (nullish (Some (cultivating t)) 0).

(** [setReforge(reforgeId)] on a built tool: it assigns [reforge] and
    [reforgeStats] and nothing else. *)
Definition setReforge (E : Env) (t : FarmingTool) (reforgeId : string) : FarmingTool :=
  let reforge := reforgeOf <$> lookupObject (REFORGES E) reforgeId in
  {| item := item t; crop := crop t; tool := tool t;
     rarity := rarity t; counter := counter t; cultivating := cultivating t;
     reforge := reforge;
     reforgeStats := reforge ≫= fun r => rarity t ≫= (tiers r !!.);
     farmingForDummies := farmingForDummies t;
     recombobulated := recombobulated t;
     fortune_total := fortune_total t;
     fortuneBreakdown := fortuneBreakdown t;
     options := options t |}.

(** ** The contributions of one aggregation, in evaluation order

    [contributions] lists the (label, value) pairs that [sumFortune]
    writes, one per executed [contribute]; [sumFortune_replay] below shows
    that [sumFortune] is the replay of this list. *)

Definition enchantWrites (E : Env) (crop : option Crop)
    (entry : string * number) : list (string * number) :=
  let '(enchant, level) := entry in
  if negb (truthy level) then [] else
  match lookupObject (TURBO_ENCHANTS E) enchant with
  | Some (Own matchingCrop) =>
      if decide (crop = Some matchingCrop)
      then [("Turbo", TURBO_ENCHANT_FORTUNE E * level)]
      else []
  | Some (Inherited _) => []
  | None =>
      match lookupObject (FARMING_ENCHANTS E) enchant with
      | None => []
      | Some (Inherited _) => []
      | Some (Own enchantment) =>
          let fortune :=
            farmingFortuneOf E (levels enchantment ≫= fun l : number -> option Stats => l level) in
          if 0 <? fortune then [(enchant_name enchantment, fortune)] else []
      end
  end.

Definition dedicationWrites (E : Env) (crop : option Crop) (item : Item)
    (options : option PlayerOptions) : list (string * number) :=
  let milestone :=
    nullish (crop ≫= fun c => (options ≫= milestones) ≫= (.!! c)) 0 in
  let enchantments := nullish (enchantments item) [] in
  if truthy milestone && has "dedication" enchantments then
    match get "dedication" enchantments, FARMING_ENCHANTS E !! "dedication" with
    | Some level, Some enchantment =>
        if truthy level then
          let multiplier :=
            farmingFortuneOf E (multipliedLevels enchantment ≫=
               fun l : number -> option Stats => l level) in
          if (0 <? multiplier) && negb (isNaN milestone)
          then [(enchant_name enchantment, multiplier * milestone)]
          else []
        else []
    | _, _ => []
    end
  else [].

Definition guarded (label : string) (v : number) : list (string * number) :=
  if 0 <? v then [(label, v)] else [].

Definition contributions (E : Env) (t : FarmingTool) : list (string * number) :=
  guarded "Tool Bonus" (farmingFortuneOf E (baseStats (tool t)))
  ++ guarded "Tool Stats" (rarityStats E (tool t) (rarity t) (recombobulated t))
  ++ guarded (nullish (reforge t ≫= reforge_name) "Reforge")
       (farmingFortuneOf E (reforgeStats t ≫= tier_stats))
  ++ guarded "Farming for Dummies" (farmingForDummies t)
  ++ (if decide (tool_type (tool t) = Some (FarmingToolType_MathematicalHoe E))
      then guarded "Tool Ability" (getFarmingAbilityFortune E (item t))
      else [])
  ++ flat_map (enchantWrites E (tool_crop (tool t)))
       (entries (nullish (enchantments (item t)) []))
  ++ dedicationWrites E (tool_crop (tool t)) (item t) (options t).

Definition replay (log : list (string * number)) (st : tally) : tally :=
  fold_left (fun st w => contribute w.1 w.2 st) log st.

(** The five crops whose harvest replants itself. *)
Definition replenishing : list Crop :=
  [Carrot; CocoaBeans; NetherWart; Potato; Seeds].

(** The drops of a replenishing crop as the specification words them,
    [round (b * dropsPerBreak * (f + 100) / 100 - b)], computed exactly
    over the rationals and rounded to the nearest integer, ties upwards.
    It is what [CalculateExpectedDrops] is compared with, not a part of
    the program. *)
Definition specReplenishDrops (b dropsPerBreak f : Q) : Z :=
  Qfloor (b * dropsPerBreak * (f + 100) / 100 - b + (1 # 2))%Q.

(** The four crops with neither replenishment nor a dicer bonus. *)
Definition plainCrops : list Crop := [Cactus; Wheat; Mushroom; SugarCane].

(** ** A small world to run the model in

    Concrete tables and helpers in the shape the imports have, used to
    evaluate the model on examples. *)

Module Sample.

Definition FF : Stat := "Farming Fortune".

Definition hoe : FarmingToolInfo :=
  {| tool_crop := Some Wheat;
     tool_type := Some "MathematicalHoe";
     baseStats := Some {[ FF := 10 ]};
     stats := Some {[ "Rare" := {[ FF := 12 ]}; "Epic" := {[ FF := 25 ]} ]};
     maxRarity := Some "Mythic" |}.

Definition blessed : Reforge :=
  {| reforge_name := Some "Blessed";
     tiers := {[ "Rare" := {| tier_stats := Some {[ FF := 9 ]} |};
                 "Epic" := {| tier_stats := Some {[ FF := 13 ]} |};
                 "Mythic" := {| tier_stats := Some {[ FF := 20 ]} |} ]} |}.

Definition bountifulReforge : Reforge :=
  {| reforge_name := Some "Bountiful";
     tiers := {[ "Rare" := {| tier_stats := Some {[ FF := 3 ]} |};
                 "Epic" := {| tier_stats := Some {[ FF := 5 ]} |};
                 "Mythic" := {| tier_stats := Some {[ FF := 10 ]} |} ]} |}.

Definition harvesting : FarmingEnchant :=
  {| enchant_name := "Harvesting";
     levels := Some (fun l => Some {[ FF := 12.5 * l ]});
     multipliedLevels := None |}.

(** A dedication entry with a flat row and a milestone-scaled row at
    level 1. *)
Definition dedication : FarmingEnchant :=
  {| enchant_name := "Dedication";
     levels := Some (fun l => if l =? 1 then Some {[ FF := 4 ]} else None);
     multipliedLevels :=
       Some (fun l => if l =? 1 then Some {[ FF := 0.5 ]} else None) |}.

Definition previous (r : option Rarity) : option Rarity :=
  match r with
  | Some "Mythic" => Some "Legendary"%string
  | Some "Legendary" => Some "Epic"%string
  | Some "Epic" => Some "Rare"%string
  | Some "Rare" => Some "Uncommon"%string
  | _ => Some "Common"%string
  end.

Definition digits (s : string) : number :=
  fold_left
    (fun acc c =>
       let n := Ascii.nat_of_ascii c in
       if bool_decide (48 <= n <= 57)%nat
       then acc * 10 + of_Z (Z.of_nat n - 48)
       else nan)
    (String.list_ascii_of_string s) 0.

Definition env : Env :=
  {| MAX_CROP_FORTUNE := {[ Wheat := 1500; Mushroom := 1400 ]};
     BEST_FARMING_TOOLS := {[ Wheat := hoe ]};
     REFORGES := {[ "blessed" := blessed; "bountiful" := bountifulReforge ]};
     FARMING_TOOLS := {[ "THEORETICAL_HOE_WHEAT_1" := hoe ]};
     TURBO_ENCHANTS := {[ "turbo_wheat" := Wheat; "turbo_carrot" := Carrot ]};
     TURBO_ENCHANT_FORTUNE := 5;
     FARMING_ENCHANTS :=
       {[ "harvesting" := harvesting; "dedication" := dedication ]};
     Rarity_Mythic := "Mythic";
     Stat_FarmingFortune := FF;
     FarmingToolType_MathematicalHoe := "MathematicalHoe";
     CalculateMelonPerkBonus := fun b => b * 0.25;
     CalculatePumpkinPerkBonus := fun b => b * 0.125;
     CalculateAverageSpecialCrops := fun b _ pieces =>
       {| sc_type := "Special"; sc_amount := b * pieces * 0.0001;
          sc_npc := b * pieces * 0.0001 * 25000 |};
     GetRarityFromLore := fun lore => default "Common" (last lore);
     PreviousRarity := previous;
     ExtractNumberFromLine := fun _ => None;
     ToNumber := digits |}.

Definition rareHoe : Item :=
  {| skyblockId := Some "THEORETICAL_HOE_WHEAT_1";
     item_name := Some "Euclid's Wheat Hoe";
     lore := Some ["Rare"];
     enchantments := Some [("turbo_wheat", 5); ("harvesting", 6)];
     attributes := Some {[ "modifier" := "blessed";
                           "farming_for_dummies_count" := "5" ]} |}.

(** The same hoe, recombobulated: its lore now reads one tier higher. *)
Definition recombobulatedHoe : Item :=
  {| skyblockId := Some "THEORETICAL_HOE_WHEAT_1";
     item_name := Some "Euclid's Wheat Hoe";
     lore := Some ["Epic"];
     enchantments := Some [("turbo_wheat", 5); ("harvesting", 6)];
     attributes := Some {[ "modifier" := "blessed";
                           "farming_for_dummies_count" := "5";
                           "rarity_upgrades" := "1" ]} |}.

Definition dedicatedHoe : Item :=
  {| skyblockId := Some "THEORETICAL_HOE_WHEAT_1";
     item_name := Some "Euclid's Wheat Hoe";
     lore := Some ["Rare"];
     enchantments := Some [("dedication", 1)];
     attributes := None |}.

Definition player : PlayerOptions :=
  {| milestones := Some {[ Wheat := 10 ]} |}.

Definition unknownItem : Item :=
  {| skyblockId := Some "DIAMOND_SWORD";
     item_name := Some "Diamond Sword";
     lore := None; enchantments := None; attributes := None |}.

Definition detailed (fortune b : number) (bountiful mooshroom : bool) :=
  {| d_farmingFortune := Some fortune; d_blocksBroken := b;
     bountiful := bountiful; mooshroom := mooshroom |}.

End Sample.

(** An enchantment the loop passes over: its level is zero or NaN, or
    neither table knows its name. *)
Definition ignoredEnchant (E : Env) (entry : string * number) : Prop :=
  truthy entry.2 = false \/
  (TURBO_ENCHANTS E !! entry.1 = None /\ FARMING_ENCHANTS E !! entry.1 = None).

(** More items for the small world. *)

Module MoreSamples.

(** A hoe with an enchantment no table knows and a known one at level 0. *)
Definition swordEnchantedHoe : Item :=
  {| skyblockId := Some "THEORETICAL_HOE_WHEAT_1";
     item_name := Some "Euclid's Wheat Hoe";
     lore := Some ["Rare"];
     enchantments := Some [("sharpness", 5); ("harvesting", 0)];
     attributes := None |}.

(** An item whose identifier is a name every object inherits. *)
Definition constructorItem : Item :=
  {| skyblockId := Some "constructor";
     item_name := Some "Mystery Item";
     lore := None; enchantments := None; attributes := None |}.

End MoreSamples.

(** * Properties *)

(** ** Facts about number comparisons *)

Lemma Prim2SF_zero : Prim2SF 0 = S754_zero false.
Proof. reflexivity. Qed.

Lemma positive_not_leb (x : number) : (0 <? x) = true -> (x <=? 0) = false.
Proof.
  rewrite FloatAxioms.ltb_spec, FloatAxioms.leb_spec, Prim2SF_zero.
  unfold SFltb, SFleb.
  destruct (Prim2SF x) as [s | s | | s m e]; simpl; try discriminate;
    by destruct s.
Qed.

Lemma nonnegative_not_ltb (x : number) : (0 <=? x) = true -> (x <? 0) = false.
Proof.
  rewrite FloatAxioms.ltb_spec, FloatAxioms.leb_spec, Prim2SF_zero.
  unfold SFltb, SFleb.
  destruct (Prim2SF x) as [s | s | | s m e]; simpl; try discriminate;
    by destruct s.
Qed.

Lemma SFcompare_finite_refl s m e :
  SFcompare (S754_finite s m e) (S754_finite s m e) = Some Eq.
Proof.
  simpl. rewrite Z.compare_refl.
  replace (Pos.compare_cont Eq m m) with Eq
    by (symmetry; apply Pos.compare_cont_refl).
  by destruct s.
Qed.

Lemma positive_truthy (x : number) : (0 <? x) = true -> truthy x = true.
Proof.
  unfold truthy, isNaN, is_nan.
  rewrite FloatAxioms.ltb_spec, !FloatAxioms.eqb_spec, Prim2SF_zero.
  unfold SFltb, SFeqb.
  destruct (Prim2SF x) as [s | s | | s m e] eqn:Hx; try (simpl; discriminate).
  - by destruct s.
  - rewrite SFcompare_finite_refl. by destruct s.
Qed.

(** ** Ordered records *)

Section Records.
Context {A : Type}.
Implicit Types (o : record A) (k : string) (v : A).

Lemma get_set_eq k v o : get k (set k v o) = Some v.
Proof.
  induction o as [|[k' v'] o IH]; simpl.
  - by rewrite decide_True.
  - destruct (decide (k = k')) as [->|Hne]; simpl.
    + by rewrite decide_True.
    + by rewrite decide_False.
Qed.

Lemma get_set_ne k k' v o : k ≠ k' -> get k (set k' v o) = get k o.
Proof.
  intros Hne. induction o as [|[k0 v0] o IH]; simpl.
  - by rewrite decide_False.
  - destruct (decide (k' = k0)) as [->|Hne']; simpl.
    + by rewrite !decide_False.
    + by rewrite IH.
Qed.

Lemma get_set k k' v o :
  get k (set k' v o) = if decide (k = k') then Some v else get k o.
Proof.
  destruct (decide (k = k')) as [->|Hne];
    [apply get_set_eq|by apply get_set_ne].
Qed.

Lemma get_remove_eq k o : get k (remove k o) = None.
Proof.
  induction o as [|[k' v'] o IH]; simpl; [done|].
  destruct (decide (k = k')) as [->|Hne]; simpl; [done|].
  by rewrite decide_False.
Qed.

Lemma get_remove_ne k k' o : k ≠ k' -> get k (remove k' o) = get k o.
Proof.
  intros Hne. induction o as [|[k0 v0] o IH]; simpl; [done|].
  destruct (decide (k' = k0)) as [->|Hne']; simpl.
  - by rewrite decide_False.
  - by rewrite IH.
Qed.

Lemma get_app k o1 o2 :
  get k (o1 ++ o2) = match get k o1 with Some v => Some v | None => get k o2 end.
Proof.
  induction o1 as [|[k' v'] o1 IH]; simpl; [done|].
  by destruct (decide (k = k')).
Qed.

(** Assigning to a key that is not there appends it. *)
Lemma set_fresh k v o : get k o = None -> set k v o = o ++ [(k, v)].
Proof.
  induction o as [|[k' v'] o IH]; simpl; [done|].
  destruct (decide (k = k')); [done|]. intros H. by rewrite IH.
Qed.

End Records.

Lemma sum_snoc (xs : list number) (x : number) : sum (xs ++ [x]) = sum xs + x.
Proof. unfold sum. by rewrite fold_left_app. Qed.

(** ** Replaying a list of contributions *)

Lemma replay_app log1 log2 st :
  replay (log1 ++ log2) st = replay log2 (replay log1 st).
Proof. apply fold_left_app. Qed.

Lemma replay_guarded label v st :
  replay (guarded label v) st = if 0 <? v then contribute label v st else st.
Proof. unfold guarded. by destruct (0 <? v). Qed.

(** The running total ignores the labels: it is the left-to-right sum of
    every value written. *)
Lemma replay_total log st :
  (replay log st).2 = fold_left (fun a b => a + b) log.*2 st.2.
Proof.
  revert st. induction log as [|[k v] log IH]; intros st; simpl; [done|].
  unfold replay in IH. by rewrite IH.
Qed.

(** When every label is written once, the breakdown is the list of
    contributions itself. *)
Lemma replay_fresh log st :
  NoDup log.*1 ->
  (forall k, k ∈ log.*1 -> get k st.1 = None) ->
  (replay log st).1 = st.1 ++ log.
Proof.
  revert st. induction log as [|[k v] log IH]; intros st Hnd Hfresh; simpl.
  - by rewrite app_nil_r.
  - simpl in Hnd. apply NoDup_cons in Hnd as [Hk Hnd].
    unfold replay in IH. rewrite IH; simpl; [| done |].
    + rewrite set_fresh by (apply Hfresh; left).
      by rewrite <- app_assoc.
    + intros k' Hk'. rewrite set_fresh by (apply Hfresh; left).
      rewrite get_app, Hfresh by (by right). simpl.
      rewrite decide_False; [done|]. intros ->. done.
Qed.

(** A label that no contribution carries keeps its entry. *)
Lemma replay_other k log st :
  (forall w, w ∈ log -> w.1 ≠ k) -> get k (replay log st).1 = get k st.1.
Proof.
  revert st. induction log as [|[k' v] log IH]; intros st Hne; simpl; [done|].
  unfold replay in IH. rewrite IH.
  - simpl. apply get_set_ne. intros ->. by apply (Hne (k', v)); [left|].
  - intros w Hw. apply Hne. by right.
Qed.

Lemma enchant_loop_replay E crop es st :
  fold_left (enchantStep E crop) es st
  = replay (flat_map (enchantWrites E crop) es) st.
Proof.
  revert st. induction es as [|[enchant level] es IH]; intros st; [done|].
  simpl. rewrite replay_app, IH. f_equal.
  destruct (truthy level); simpl; [|done].
  destruct (lookupObject (TURBO_ENCHANTS E) enchant) as [[c|?]|]; [|done|].
  - by destruct (decide (crop = Some c)).
  - destruct (lookupObject (FARMING_ENCHANTS E) enchant) as [[e|?]|]; [|done..].
    by destruct (0 <? _).
Qed.

Lemma dedication_replay E crop item options st :
  dedicationStep E crop item options st
  = replay (dedicationWrites E crop item options) st.
Proof.
  unfold dedicationStep, dedicationWrites.
  destruct (_ && _); [|done].
  destruct (get _ _) as [level|]; [|done].
  destruct (FARMING_ENCHANTS E !! _) as [e|]; [|done].
  destruct (truthy level); [|done].
  by destruct (_ && _).
Qed.

(** [sumFortune] writes exactly the contributions, in order. *)
Lemma sumFortune_replay E self item options t :
  rebuildTool E self item options = inr t ->
  (fortuneBreakdown t, fortune_total t) = replay (contributions E t) ([], 0).
Proof.
  unfold rebuildTool. destruct (_ ≫= _) as [tl|]; [|done].
  intros [= <-]. simpl. rewrite <- surjective_pairing.
  unfold sumFortune, fixedSources, contributions. simpl.
  rewrite !replay_app, !replay_guarded.
  rewrite <- dedication_replay, <- enchant_loop_replay.
  repeat f_equal.
  destruct (decide _); [|done]. by rewrite replay_guarded.
Qed.

(** ** The fortune aggregator *)

(** C1 (as amended).  The fortune total is the sum of every contribution
    the aggregator evaluates; it equals the sum of the values of the
    breakdown whenever no two contributions carry the same label.  (When a
    label is written twice the breakdown keeps the last value only, while
    the total has counted both.) *)
Theorem fortune_total_sums_contributions E self item options t :
  rebuildTool E self item options = inr t ->
  fortune_total t = sum (contributions E t).*2 /\
  (NoDup (contributions E t).*1 ->
   fortune_total t = sum (values (fortuneBreakdown t))).
Proof.
  intros Hbuild. apply sumFortune_replay in Hbuild.
  assert (Htotal : fortune_total t = sum (contributions E t).*2).
  { change (fortune_total t) with (fortuneBreakdown t, fortune_total t).2.
    rewrite Hbuild. apply replay_total. }
  split; [done|]. intros Hnd.
  assert (Hbd : fortuneBreakdown t = contributions E t).
  { change (fortuneBreakdown t) with (fortuneBreakdown t, fortune_total t).1.
    rewrite Hbuild. by rewrite replay_fresh. }
  by rewrite Hbd.
Qed.

Lemma fortune_total_sums_contributions_witness :
  exists t,
    rebuildTool Sample.env None Sample.rareHoe None = inr t /\
    NoDup (contributions Sample.env t).*1 /\
    fortune_total t = 136 /\
    fortune_total t = sum (values (fortuneBreakdown t)).
Proof.
  eexists. split; [reflexivity|].
  match goal with |- NoDup ?l /\ _ => assert (Hnd : NoDup l) end.
  { apply (bool_decide_unpack _). vm_compute. reflexivity. }
  split; [exact Hnd|]. split; [reflexivity|].
  exact (proj2 (fortune_total_sums_contributions
                  Sample.env None Sample.rareHoe None _ eq_refl) Hnd).
Defined.

(** C1 as the specification states it fails.  The dedication entry of
    the sample tables carries a flat row (4) and a milestone-scaled row
    (0.5 per milestone); with 10 wheat milestones both 4 and 5 are added
    to the total, but the second write replaces the first in the
    breakdown. *)
Lemma fortune_total_not_breakdown_sum :
  exists t,
    rebuildTool Sample.env None Sample.dedicatedHoe (Some Sample.player) = inr t /\
    contributions Sample.env t
      = [("Tool Bonus", 10); ("Tool Stats", 12); ("Dedication", 4); ("Dedication", 5)] /\
    fortuneBreakdown t = [("Tool Bonus", 10); ("Tool Stats", 12); ("Dedication", 5)] /\
    fortune_total t = 31 /\
    sum (values (fortuneBreakdown t)) = 27 /\
    fortune_total t ≠ sum (values (fortuneBreakdown t)).
Proof.
  eexists. split; [reflexivity|].
  split; [vm_compute; reflexivity|]. split; [vm_compute; reflexivity|].
  split; [vm_compute; reflexivity|]. split; [vm_compute; reflexivity|].
  intros H. apply (f_equal (fun x => x =? 31)) in H.
  vm_compute in H. discriminate.
Qed.

(** The three outcomes of a property lookup. *)
Lemma lookupObject_own {A} (o : gmap string A) key a :
  o !! key = Some a -> lookupObject o key = Some (Own a).
Proof. intros H. unfold lookupObject. by rewrite H. Qed.

Lemma lookupObject_inherited {A} (o : gmap string A) key :
  o !! key = None -> key ∈ ObjectPrototype ->
  lookupObject o key = Some (Inherited key).
Proof. intros H Hin. unfold lookupObject. by rewrite H, decide_True. Qed.

Lemma lookupObject_missing {A} (o : gmap string A) key :
  o !! key = None -> key ∉ ObjectPrototype -> lookupObject o key = None.
Proof. intros H Hnot. unfold lookupObject. by rewrite H, decide_False. Qed.

Lemma lookupObject_None {A} (o : gmap string A) key :
  lookupObject o key = None <-> o !! key = None /\ key ∉ ObjectPrototype.
Proof.
  unfold lookupObject. destruct (o !! key); [by split; [|intros []]|].
  destruct (decide (key ∈ ObjectPrototype)); by split; [|intros []].
Qed.

(** C4 (what the code does).  The constructor throws the unknown-tool
    error for an identifier that is neither a key of the tool table nor a
    name every object inherits, and builds the tool for a key of the
    table.  For an inherited name such as "constructor", which is not a
    key of the table, [FARMING_TOOLS[id]] is an inherited function: it
    passes the [!tool] test, nothing is thrown, and a tool without crop
    and stats comes back, with fortune 0 for an item that carries nothing
    else. *)
Theorem inherited_identifier_is_not_rejected E item options id :
  skyblockId item = Some id ->
  (FARMING_TOOLS E !! id = None -> id ∉ ObjectPrototype ->
   FarmingTool_new E item options
     = inl (UnknownTool (item_name item) (Some id))) /\
  (forall info, FARMING_TOOLS E !! id = Some info ->
   exists t, FarmingTool_new E item options = inr t /\ tool t = info) /\
  (FARMING_TOOLS E !! id = None -> id ∈ ObjectPrototype ->
   exists t,
     FarmingTool_new E item options = inr t /\
     tool t = inheritedTool /\ crop t = None /\
     (lore item = None -> enchantments item = None -> attributes item = None ->
      fortune_total t = 0 /\ fortuneBreakdown t = [])).
Proof.
  intros Hid. unfold FarmingTool_new, rebuildTool.
  rewrite Hid. cbn [mbind option_bind].
  split; [|split].
  - intros Hnone Hnot. by rewrite lookupObject_missing.
  - intros info Hinfo. rewrite (lookupObject_own _ _ _ Hinfo). by eexists.
  - intros Hnone Hin. rewrite lookupObject_inherited by done.
    eexists. split; [reflexivity|]. split; [done|]. split; [done|].
    intros Hlore Hench Hattr. cbn [fortune_total fortuneBreakdown].
    unfold sumFortune, fixedSources, dedicationStep, numericAttribute, attribute.
    rewrite Hlore, Hench, Hattr. cbn.
    destruct (decide _); [done|].
    by destruct (lookupObject (REFORGES E) "").
Qed.

Lemma sample_constructor_is_no_tool :
  FARMING_TOOLS Sample.env !! "constructor" = None.
Proof. vm_compute. reflexivity. Qed.

Lemma sample_constructor_is_inherited : "constructor" ∈ ObjectPrototype.
Proof. apply (bool_decide_unpack _). vm_compute. reflexivity. Qed.

Lemma sample_sword_is_no_tool :
  FARMING_TOOLS Sample.env !! "DIAMOND_SWORD" = None /\
  "DIAMOND_SWORD" ∉ ObjectPrototype.
Proof.
  split; [vm_compute; reflexivity|].
  apply (bool_decide_unpack _). vm_compute. reflexivity.
Qed.

Lemma inherited_identifier_is_not_rejected_witness :
  skyblockId MoreSamples.constructorItem = Some "constructor" /\
  FARMING_TOOLS Sample.env !! "constructor" = None /\
  (exists t,
     FarmingTool_new Sample.env MoreSamples.constructorItem None = inr t /\
     crop t = None /\ fortune_total t = 0 /\ fortuneBreakdown t = []) /\
  FarmingTool_new Sample.env Sample.unknownItem None
    = inl (UnknownTool (Some "Diamond Sword") (Some "DIAMOND_SWORD")).
Proof.
  split; [reflexivity|]. split; [exact sample_constructor_is_no_tool|].
  split.
  - destruct (proj2 (proj2 (inherited_identifier_is_not_rejected Sample.env
                              MoreSamples.constructorItem None "constructor" eq_refl))
                sample_constructor_is_no_tool sample_constructor_is_inherited)
      as (t & Ht & _ & Hcrop & Hbare).
    exists t. split; [exact Ht|]. split; [exact Hcrop|].
    exact (Hbare eq_refl eq_refl eq_refl).
  - exact (proj1 (inherited_identifier_is_not_rejected Sample.env
                    Sample.unknownItem None "DIAMOND_SWORD" eq_refl)
             (proj1 sample_sword_is_no_tool) (proj2 sample_sword_is_no_tool)).
Defined.

(** The reforge of a built tool is an entry of the reforge table, or
    else (no reforge, or a value found under an inherited name, which has
    no tiers) the tool has no reforge stats. *)
Lemma built_reforge E self item options t :
  rebuildTool E self item options = inr t ->
  (exists id r, REFORGES E !! id = Some r /\ reforge t = Some r) \/
  reforgeStats t = None.
Proof.
  unfold rebuildTool. destruct (skyblockId item ≫= _); [|done].
  intros [= <-]. cbn [reforge reforgeStats]. unfold lookupObject.
  destruct (REFORGES E !! _) as [r|] eqn:Hr; [left; by eexists _, _|].
  right. destruct (decide _); [|done]. cbn.
  destruct (match lore item with Some _ => _ | None => _ end); [|done].
  apply lookup_empty.
Qed.

(** A contribution list that is empty holds no entry; one that is a
    singleton holds that entry. *)
Ltac no_write H := by apply elem_of_nil in H.
Ltac one_write H := apply list_elem_of_singleton in H.

(** The "Tool Stats" entry of a built tool is its rarity stat row, as
    long as no reforge and no enchantment is itself called "Tool Stats". *)
Lemma tool_stats_entry E self item options t :
  (forall id r, REFORGES E !! id = Some r -> reforge_name r ≠ Some "Tool Stats") ->
  (forall id e, FARMING_ENCHANTS E !! id = Some e -> enchant_name e ≠ "Tool Stats") ->
  rebuildTool E self item options = inr t ->
  get "Tool Stats" (fortuneBreakdown t)
  = let v := rarityStats E (tool t) (rarity t) (recombobulated t) in
    if 0 <? v then Some v else None.
Proof.
  intros Hreforges Henchants Hbuild.
  pose proof (sumFortune_replay _ _ _ _ _ Hbuild) as Hreplay.
  change (fortuneBreakdown t) with (fortuneBreakdown t, fortune_total t).1.
  rewrite Hreplay. unfold contributions.
  rewrite replay_app, (replay_app (guarded "Tool Stats" _)).
  rewrite replay_other.
  - rewrite !replay_guarded. simpl.
    destruct (0 <? rarityStats _ _ _ _); simpl.
    + by rewrite get_set_eq.
    + by destruct (0 <? _).
  - intros [k v] Hw. simpl. intros ->.
    pose proof (built_reforge _ _ _ _ _ Hbuild) as Hreforge.
    rewrite !elem_of_app in Hw. destruct Hw as [Hw|[Hw|[Hw|[Hw|Hw]]]].
    + destruct Hreforge as [(id & r & Hown & Hr)|Hnone].
      * unfold guarded in Hw. destruct (0 <? _); [|no_write Hw].
        one_write Hw. injection Hw as Hname _.
        rewrite Hr in Hname. simpl in Hname.
        destruct (reforge_name r) eqn:Hn; simpl in Hname; [|done].
        subst. by eapply Hreforges.
      * rewrite Hnone in Hw. no_write Hw.
    + unfold guarded in Hw. destruct (0 <? _); [|no_write Hw].
      by one_write Hw.
    + destruct (decide _); [|no_write Hw].
      unfold guarded in Hw. destruct (0 <? _); [|no_write Hw].
      by one_write Hw.
    + apply list_elem_of_In, in_flat_map in Hw as ([enchant level] & _ & Hw).
      apply list_elem_of_In in Hw. unfold enchantWrites in Hw.
      destruct (truthy level); simpl in Hw; [|no_write Hw].
      destruct (lookupObject (TURBO_ENCHANTS E) enchant) as [[c|?]|];
        [|no_write Hw|].
      * destruct (decide _); [|no_write Hw].
        by one_write Hw.
      * unfold lookupObject in Hw.
        destruct (FARMING_ENCHANTS E !! enchant) as [e|] eqn:He;
          [|destruct (decide _); no_write Hw].
        destruct (0 <? _); [|no_write Hw].
        one_write Hw. injection Hw as Hname _.
        by eapply Henchants.
    + unfold dedicationWrites in Hw.
      destruct (_ && _); [|no_write Hw].
      destruct (get _ _) as [level|]; [|no_write Hw].
      destruct (FARMING_ENCHANTS E !! _) as [e|] eqn:He;
        [|no_write Hw].
      destruct (truthy level); [|no_write Hw].
      destruct (_ && _); [|no_write Hw].
      one_write Hw. injection Hw as Hname _.
      by eapply Henchants.
Qed.

(** C5.  Take two items for the same tool, one recombobulated (its
    [rarity_upgrades] attribute is the string "1") and stating a rarity
    whose previous tier is the rarity the other, not recombobulated, item
    states.  Then the recombobulated item looks up the stat row of the
    lower rarity, the same row the other item looks up, so both contribute
    the same "Tool Stats" value; and their "Tool Stats" breakdown entries
    are equal (given that no reforge or enchantment of the tables is
    itself labelled "Tool Stats" and could overwrite the entry). *)
Theorem recombobulated_uses_previous_rarity E plain upgraded options t_plain t_upgraded :
  FarmingTool_new E plain options = inr t_plain ->
  FarmingTool_new E upgraded options = inr t_upgraded ->
  skyblockId upgraded = skyblockId plain ->
  attribute upgraded "rarity_upgrades" = Some "1" ->
  attribute plain "rarity_upgrades" ≠ Some "1" ->
  PreviousRarity E (rarity t_upgraded) = rarity t_plain ->
  let row := farmingFortuneOf E
               (stats (tool t_plain) ≫= fun s => rarity t_plain ≫= (s !!.)) in
  rarityStats E (tool t_upgraded) (rarity t_upgraded) (recombobulated t_upgraded) = row /\
  rarityStats E (tool t_plain) (rarity t_plain) (recombobulated t_plain) = row /\
  ((forall id r, REFORGES E !! id = Some r -> reforge_name r ≠ Some "Tool Stats") ->
   (forall id e, FARMING_ENCHANTS E !! id = Some e -> enchant_name e ≠ "Tool Stats") ->
   get "Tool Stats" (fortuneBreakdown t_upgraded)
     = get "Tool Stats" (fortuneBreakdown t_plain)).
Proof.
  intros Hplain Hupgraded Hid Hattr Hnattr Hprev row.
  assert (Hfields :
    tool t_upgraded = tool t_plain /\
    recombobulated t_upgraded = true /\ recombobulated t_plain = false).
  { revert Hplain Hupgraded. unfold FarmingTool_new, rebuildTool. rewrite Hid.
    destruct (skyblockId plain ≫= _); [|done]. intros [= <-] [= <-]. simpl.
    split; [done|]. split.
    - by apply bool_decide_eq_true.
    - by apply bool_decide_eq_false. }
  destruct Hfields as (Htool & Hup & Hpl).
  assert (Hrow_up : rarityStats E (tool t_upgraded) (rarity t_upgraded)
                      (recombobulated t_upgraded) = row).
  { unfold rarityStats. by rewrite Hup, Hprev, Htool. }
  assert (Hrow_pl : rarityStats E (tool t_plain) (rarity t_plain)
                      (recombobulated t_plain) = row).
  { unfold rarityStats. by rewrite Hpl. }
  split; [done|]. split; [done|]. intros Hreforges Henchants.
  rewrite (tool_stats_entry E None upgraded options t_upgraded) by done.
  rewrite (tool_stats_entry E None plain options t_plain) by done.
  simpl. by rewrite Hrow_up, Hrow_pl.
Qed.

Lemma sample_reforge_names :
  map_Forall (fun _ r => reforge_name r ≠ Some "Tool Stats") (REFORGES Sample.env).
Proof. apply (bool_decide_unpack _). vm_compute. reflexivity. Qed.

Lemma sample_enchant_names :
  map_Forall (fun _ e => enchant_name e ≠ "Tool Stats") (FARMING_ENCHANTS Sample.env).
Proof. apply (bool_decide_unpack _). vm_compute. reflexivity. Qed.

Lemma sample_plain_not_recombobulated :
  attribute Sample.rareHoe "rarity_upgrades" ≠ Some "1".
Proof. apply (bool_decide_unpack _). vm_compute. reflexivity. Qed.

Lemma recombobulated_uses_previous_rarity_witness :
  exists t_plain t_upgraded,
    FarmingTool_new Sample.env Sample.rareHoe None = inr t_plain /\
    FarmingTool_new Sample.env Sample.recombobulatedHoe None = inr t_upgraded /\
    rarity t_plain = Some "Rare" /\ rarity t_upgraded = Some "Epic" /\
    get "Tool Stats" (fortuneBreakdown t_plain) = Some 12 /\
    get "Tool Stats" (fortuneBreakdown t_upgraded)
      = get "Tool Stats" (fortuneBreakdown t_plain).
Proof.
  eexists _, _. split; [reflexivity|]. split; [reflexivity|].
  split; [reflexivity|]. split; [reflexivity|]. split; [reflexivity|].
  refine (proj2 (proj2 (recombobulated_uses_previous_rarity
    Sample.env Sample.rareHoe Sample.recombobulatedHoe None _ _
    eq_refl eq_refl eq_refl eq_refl sample_plain_not_recombobulated _))
    sample_reforge_names sample_enchant_names).
  vm_compute. reflexivity.
Defined.

(** C6.  Consider an item that carries a turbo enchantment at a
    positive level, at any position among its enchantments.  When the
    enchantment loop of the aggregator reaches it, it writes the "Turbo"
    entry [TURBO_ENCHANT_FORTUNE * level] and adds the same amount to the
    total if the enchantment's crop is the tool's crop; if the crops
    differ it leaves both the breakdown and the total as they were. *)
Theorem turbo_counts_only_for_its_crop
    E self item options t earlier later enchant level matchingCrop :
  rebuildTool E self item options = inr t ->
  enchantments item = Some (earlier ++ (enchant, level) :: later) ->
  TURBO_ENCHANTS E !! enchant = Some matchingCrop ->
  (0 <? level) = true ->
  let gain := TURBO_ENCHANT_FORTUNE E * level in
  let before :=
    fold_left (enchantStep E (crop t)) earlier
      (fixedSources E item (tool t) (rarity t) (reforge t) (reforgeStats t)
         (farmingForDummies t) (recombobulated t)) in
  let after := enchantStep E (crop t) before (enchant, level) in
  (fortuneBreakdown t, fortune_total t)
    = dedicationStep E (crop t) item options
        (fold_left (enchantStep E (crop t)) later after) /\
  (crop t = Some matchingCrop ->
   after = contribute "Turbo" gain before /\
   get "Turbo" after.1 = Some gain /\ after.2 = before.2 + gain) /\
  (crop t ≠ Some matchingCrop -> after = before).
Proof.
  intros Hbuild Hench Hturbo Hlevel gain before after.
  split.
  - revert Hbuild before after. unfold rebuildTool.
    destruct (skyblockId item ≫= _); [|done]. intros [= <-]. simpl.
    rewrite <- surjective_pairing. unfold sumFortune.
    rewrite Hench. cbn [nullish default from_option id entries].
    by rewrite fold_left_app.
  - subst after. unfold enchantStep.
    rewrite (positive_truthy _ Hlevel), (lookupObject_own _ _ _ Hturbo). simpl.
    destruct (decide (crop t = Some matchingCrop)) as [Heq|Hne]; [|done].
    split; [|done]. intros _. split; [done|]. split; [apply get_set_eq|done].
Qed.

Lemma turbo_counts_only_for_its_crop_witness :
  exists t,
    rebuildTool Sample.env None Sample.rareHoe None = inr t /\
    crop t = Some Wheat /\
    get "Turbo" (fortuneBreakdown t) = Some 25 /\
    enchantStep Sample.env (crop t)
      (fixedSources Sample.env Sample.rareHoe (tool t) (rarity t) (reforge t)
         (reforgeStats t) (farmingForDummies t) (recombobulated t))
      ("turbo_wheat", 5)
    = contribute "Turbo" 25
        (fixedSources Sample.env Sample.rareHoe (tool t) (rarity t) (reforge t)
           (reforgeStats t) (farmingForDummies t) (recombobulated t)).
Proof.
  eexists. split; [reflexivity|]. split; [reflexivity|]. split; [reflexivity|].
  exact (proj1 (proj1 (proj2 (turbo_counts_only_for_its_crop
    Sample.env None Sample.rareHoe None _ [] [("harvesting", 6)] "turbo_wheat" 5 Wheat
    eq_refl eq_refl eq_refl eq_refl)) eq_refl)).
Defined.

(** ** The yield model *)

(** C7 (as amended).  For a crop that replenishes, a given positive
    fortune [f] and a non-negative number [b] of blocks broken, the
    expected drops are [round (b * dropsPerBreak * ((f + 100) * 0.01) - b)],
    every operation being the double-precision one: the factor is a
    product with the double 0.01, not a quotient by 100.  For potato with
    [b = 100] and [f = 200] that is 800. *)
Theorem expected_drops_replenishing E crop f b :
  crop ∈ replenishing ->
  (0 <? f) = true ->
  (0 <=? b) = true ->
  let result :=
    CalculateExpectedDrops E crop {| farmingFortune := Some f; blocksBroken := b |} in
  result = Math_round (b * crop_drops (CROP_INFO crop) * ((f + 100) * 0.01) - b) /\
  (crop = Potato -> b = 100 -> f = 200 -> result = 800).
Proof.
  intros Hcrop Hf Hb result. subst result.
  unfold CalculateExpectedDrops. simpl.
  rewrite (positive_not_leb _ Hf), (nonnegative_not_ltb _ Hb). simpl.
  assert (Hformula :
    (if negb (truthy (crop_drops (GetCropInfo crop))) then 0
     else match crop with
          | Cactus | Wheat | Mushroom | SugarCane =>
              Math_round (b * crop_drops (GetCropInfo crop) * ((f + 100) * 0.01))
          | Carrot | CocoaBeans | NetherWart | Potato | Seeds =>
              Math_round (b * crop_drops (GetCropInfo crop) * ((f + 100) * 0.01) - b)
          | Pumpkin =>
              Math_round (b * crop_drops (GetCropInfo crop) * ((f + 100) * 0.01)
                          + CalculatePumpkinPerkBonus E b)
          | Melon =>
              Math_round (b * crop_drops (GetCropInfo crop) * ((f + 100) * 0.01)
                          + CalculateMelonPerkBonus E b)
          end)
    = Math_round (b * crop_drops (CROP_INFO crop) * ((f + 100) * 0.01) - b)).
  { unfold replenishing in Hcrop.
    repeat (apply elem_of_cons in Hcrop as [->|Hcrop]; [reflexivity|]).
    by apply elem_of_nil in Hcrop. }
  split; [exact Hformula|].
  intros -> -> ->. reflexivity.
Qed.

Lemma expected_drops_replenishing_witness :
  Potato ∈ replenishing /\
  CalculateExpectedDrops Sample.env Potato
    {| farmingFortune := Some 200; blocksBroken := 100 |} = 800 /\
  (3 * 2.5 * ((50 + 100) * 0.01) - 3 = 8.25 /\
   CalculateExpectedDrops Sample.env NetherWart
     {| farmingFortune := Some 50; blocksBroken := 3 |} = 8).
Proof.
  assert (Hin : Potato ∈ replenishing).
  { apply (bool_decide_unpack _). reflexivity. }
  assert (Hwart : NetherWart ∈ replenishing).
  { apply (bool_decide_unpack _). reflexivity. }
  split; [exact Hin|]. split.
  - exact (proj2 (expected_drops_replenishing Sample.env Potato 200 100
                    Hin eq_refl eq_refl) eq_refl eq_refl eq_refl).
  - split; [reflexivity|].
    rewrite (proj1 (expected_drops_replenishing Sample.env NetherWart 50 3
                      Hwart eq_refl eq_refl)).
    reflexivity.
Defined.

(** C7 as the specification states it fails.  For potato with 10 blocks
    and fortune 105 the exact value of
    [b * dropsPerBreak * (f + 100) / 100 - b] is 51.5, which rounds to 52
    (so does the same expression evaluated in doubles, 6150 / 100 being
    exact).  The code multiplies by 0.01 instead: 205 * 0.01 is the double
    just below 2.05, the product with 30 falls just below 61.5, and the
    result is 51. *)
Lemma expected_drops_not_the_exact_formula :
  Potato ∈ replenishing /\ (0 <? 105) = true /\ (0 <=? 10) = true /\
  CalculateExpectedDrops Sample.env Potato
    {| farmingFortune := Some 105; blocksBroken := 10 |} = 51 /\
  specReplenishDrops 10 3 105 = 52%Z /\
  Math_round (10 * 3 * (105 + 100) / 100 - 10) = 52 /\
  CalculateExpectedDrops Sample.env Potato
    {| farmingFortune := Some 105; blocksBroken := 10 |}
  ≠ of_Z (specReplenishDrops 10 3 105).
Proof.
  split; [apply (bool_decide_unpack _); reflexivity|].
  split; [reflexivity|]. split; [reflexivity|].
  split; [vm_compute; reflexivity|]. split; [vm_compute; reflexivity|].
  split; [vm_compute; reflexivity|].
  intros H. apply (f_equal (fun x => x =? 51)) in H.
  vm_compute in H. discriminate.
Qed.

(** What [CalculateDetailedDrops] records for a crop other than pumpkin
    and melon: no crop entry has a [replenish] property, so the plain
    branch of the [default] case runs. *)
Lemma detailed_drops_plain_branch E crop o f :
  crop ≠ Pumpkin -> crop ≠ Melon ->
  d_farmingFortune o = Some f ->
  (0 <? f) = true ->
  (0 <=? d_blocksBroken o) = true ->
  let d := CalculateDetailedDrops E crop o in
  let baseDrops :=
    d_blocksBroken o * crop_drops (CROP_INFO crop) * ((f + 100) * 0.01) in
  let special :=
    CalculateAverageSpecialCrops E (d_blocksBroken o) crop
      (if decide (crop = Cactus) then 3 else 4) in
  get "Collection" (coinSources d)
    = Some (Math_round (baseDrops * crop_npc (CROP_INFO crop))) /\
  get "Replenish" (otherCollection d)
    = (if decide ("Replenish" = sc_type special)
       then Some (Math_round (sc_amount special)) else None) /\
  collection d = Math_round baseDrops.
Proof.
  intros Hp Hm Hfortune Hf Hb d baseDrops special. subst d.
  unfold CalculateDetailedDrops. rewrite Hfortune.
  cbn [nullish default from_option id truthy_opt].
  rewrite (positive_not_leb _ Hf), (nonnegative_not_ltb _ Hb),
    (positive_truthy _ Hf), andb_false_r.
  cbn [orb negb].
  assert (Hdrops : negb (truthy (crop_drops (GetCropInfo crop))) = false)
    by (by destruct crop).
  rewrite Hdrops. unfold CropInfo_breaks, CropInfo_replenish, GetCropInfo.
  cbn [nullish default from_option id]. fold baseDrops special.
  destruct (bountiful o), (mooshroom o);
    (destruct crop; try done; cbn -[set get Math_round baseDrops special];
     (split; [apply get_set_eq|]); (split; [|reflexivity]);
     rewrite get_set; destruct (decide _); reflexivity).
Qed.

(** C2 (what the code does).  At carrot, fortune 100 and 100 blocks
    broken the base drops are 600.  The replenishment branch would record
    ['Replenish'] = -100 and a ['Collection'] coin entry of
    (600 - 100) * 3 = 1500; the plain branch runs instead: the coin entry
    is 600 * 3 = 1800, and [otherCollection] has a ['Replenish'] key only
    if that is the name of the special crop. *)
Theorem replenish_branch_not_taken E bountiful mooshroom :
  let d := CalculateDetailedDrops E Carrot
             {| d_farmingFortune := Some 100; d_blocksBroken := 100;
                bountiful := bountiful; mooshroom := mooshroom |} in
  let special := CalculateAverageSpecialCrops E 100 Carrot 4 in
  Carrot ∈ replenishing /\
  get "Collection" (coinSources d) = Some 1800 /\
  get "Collection" (coinSources d) ≠ Some (Math_round ((600 - 100 * 1) * 3)) /\
  get "Replenish" (otherCollection d)
    = (if decide ("Replenish" = sc_type special)
       then Some (Math_round (sc_amount special)) else None) /\
  collection d = 600.
Proof.
  intros d special.
  destruct (detailed_drops_plain_branch E Carrot
              {| d_farmingFortune := Some 100; d_blocksBroken := 100;
                 bountiful := bountiful; mooshroom := mooshroom |} 100
              ltac:(discriminate) ltac:(discriminate) eq_refl eq_refl eq_refl)
    as (Hcoins & Hreplenish & Hcollection).
  assert (H1800 : get "Collection" (coinSources d) = Some 1800)
    by (subst d; rewrite Hcoins; reflexivity).
  split; [apply (bool_decide_unpack _); reflexivity|].
  split; [exact H1800|].
  split; [|split; [exact Hreplenish|subst d; rewrite Hcollection; reflexivity]].
  rewrite H1800. intros H.
  apply (f_equal (fun x => if x is Some v then v =? 1800 else false)) in H.
  vm_compute in H. discriminate.
Qed.

(** C3 (what the code does).  With no block broken the divisor
    [drops * blocksBroken] is 0 and nothing guards the division: a positive
    target collection gives [Infinity] and a zero target gives [NaN], and
    [Math.ceil] passes both on. *)
Theorem fortune_required_divides_by_zero E crop useDicers useMooshroom :
  GetFortuneRequiredForCollection E
    {| r_blocksBroken := 0; r_crop := crop; r_collection := 100;
       useDicers := None; useMooshroom := None |} = infinity /\
  GetFortuneRequiredForCollection E
    {| r_blocksBroken := 0; r_crop := crop; r_collection := 0;
       useDicers := None; useMooshroom := None |} = nan /\
  GetFortuneRequiredForCollection E
    {| r_blocksBroken := 100; r_crop := Wheat; r_collection := 250;
       useDicers := useDicers; useMooshroom := useMooshroom |} = 150.
Proof.
  split; [by destruct crop|]. split; [by destruct crop|].
  unfold GetFortuneRequiredForCollection. simpl.
  destruct (nullish useDicers false), (nullish useMooshroom false); reflexivity.
Qed.

(** Every crop has an entry after the first stage. *)
Lemma detailedPerCrop_lookup E o c :
  detailedPerCrop E o !! c = Some (CalculateDetailedDrops E c o).
Proof.
  unfold detailedPerCrop, crops. cbn [fold_left].
  destruct c;
    repeat first [ apply lookup_insert_eq | rewrite lookup_insert_ne by done ].
Qed.

Lemma combineSeeds_lookup o result wheat seeds :
  result !! Wheat = Some wheat ->
  result !! Seeds = Some seeds ->
  exists wheat' result',
    combineSeeds o result = Some result' /\
    result' = <[Wheat := wheat']> result /\
    collection wheat' = collection wheat /\
    fortune wheat' = fortune wheat /\
    otherCollection wheat'
      = set "Seeds" (collection seeds - d_blocksBroken o) (otherCollection wheat) /\
    get "Seeds" (coinSources wheat')
      = Some ((collection seeds - d_blocksBroken o) * crop_npc (CROP_INFO Seeds)) /\
    npcCoins wheat' = sum (values (coinSources wheat')).
Proof.
  intros Hwheat Hseeds. unfold combineSeeds. rewrite Hwheat, Hseeds. simpl.
  eexists _, _. split; [reflexivity|]. split; [reflexivity|]. simpl.
  repeat split.
  destruct (bountiful o).
  - rewrite get_set_ne by done. apply get_set_eq.
  - apply get_set_eq.
Qed.

Lemma countMooshroom_lookup o result mushroom :
  mooshroom o = true ->
  result !! Mushroom = Some mushroom ->
  let m := nullish (get "Mushroom" (otherCollection mushroom)) 0 in
  countMooshroom o result =
    Some (<[Mushroom :=
             {| collection := collection mushroom + m;
                npcCoins := npcCoins mushroom;
                fortune := fortune mushroom;
                coinSources := coinSources mushroom;
                otherCollection :=
                  remove "Mushroom" (set "Mooshroom" m (otherCollection mushroom)) |}]>
            result).
Proof. intros Hflag Hm. unfold countMooshroom. by rewrite Hflag, Hm. Qed.

(** The sum law for one crop. *)
Lemma detailed_npcCoins E crop o :
  npcCoins (CalculateDetailedDrops E crop o)
  = sum (values (coinSources (CalculateDetailedDrops E crop o))).
Proof.
  unfold CalculateDetailedDrops.
  destruct (_ || _); [done|].
  destruct (negb (truthy _)); [done|].
  destruct (mooshroom o); by destruct crop.
Qed.

(** C8.  In every result of [CalculateDetailedDrops], and in every
    per-crop entry of the mapping [CalculateDetailedAverageDrops] returns
    (which has an entry for every crop), [npcCoins] is the sum of the
    values of [coinSources]. *)
Theorem npcCoins_is_sum_of_coinSources E o :
  (forall crop,
     npcCoins (CalculateDetailedDrops E crop o)
     = sum (values (coinSources (CalculateDetailedDrops E crop o)))) /\
  exists result,
    CalculateDetailedAverageDrops E o = Some result /\
    forall crop, exists d,
      result !! crop = Some d /\ npcCoins d = sum (values (coinSources d)).
Proof.
  split; [intros crop; apply detailed_npcCoins|].
  destruct (combineSeeds_lookup o _ _ _
              (detailedPerCrop_lookup E o Wheat) (detailedPerCrop_lookup E o Seeds))
    as (wheat' & folded & Hfold & -> & _ & _ & _ & _ & Hwheat).
  unfold CalculateDetailedAverageDrops. rewrite Hfold. simpl.
  assert (Hfolded : forall crop, exists d,
    <[Wheat := wheat']> (detailedPerCrop E o) !! crop = Some d /\
    npcCoins d = sum (values (coinSources d))).
  { intros crop. destruct (decide (crop = Wheat)) as [->|Hne].
    - exists wheat'. by rewrite lookup_insert_eq.
    - exists (CalculateDetailedDrops E crop o).
      rewrite lookup_insert_ne by done.
      split; [apply detailedPerCrop_lookup|apply detailed_npcCoins]. }
  destruct (mooshroom o) eqn:Hflag.
  - destruct (Hfolded Mushroom) as (mushroom & Hm & Hsum).
    rewrite (countMooshroom_lookup o _ mushroom Hflag Hm).
    eexists. split; [reflexivity|]. intros crop.
    destruct (decide (crop = Mushroom)) as [->|Hne].
    + eexists. rewrite lookup_insert_eq. split; [reflexivity|]. exact Hsum.
    + rewrite lookup_insert_ne by done. apply Hfolded.
  - unfold countMooshroom. rewrite Hflag. by eexists.
Qed.


(** C10.  With the mooshroom flag set, the last stage of
    [CalculateDetailedAverageDrops] touches the mushroom entry only: its
    [collection] grows by the former [otherCollection['Mushroom']] (0 when
    absent), that key is removed and a ['Mooshroom'] key holds the value
    instead; every other key of [otherCollection], the entry's
    [coinSources], [npcCoins] and [fortune], and the entries of all other
    crops are as the seed stage left them. *)
Theorem mooshroom_folding_frame E o :
  mooshroom o = true ->
  exists before after m_before m_after,
    combineSeeds o (detailedPerCrop E o) = Some before /\
    countMooshroom o before = Some after /\
    CalculateDetailedAverageDrops E o = Some after /\
    before !! Mushroom = Some m_before /\
    after !! Mushroom = Some m_after /\
    let m := nullish (get "Mushroom" (otherCollection m_before)) 0 in
    collection m_after = collection m_before + m /\
    get "Mushroom" (otherCollection m_after) = None /\
    get "Mooshroom" (otherCollection m_after) = Some m /\
    (forall k, k ≠ "Mushroom" -> k ≠ "Mooshroom" ->
       get k (otherCollection m_after) = get k (otherCollection m_before)) /\
    coinSources m_after = coinSources m_before /\
    npcCoins m_after = npcCoins m_before /\
    fortune m_after = fortune m_before /\
    (forall crop, crop ≠ Mushroom -> after !! crop = before !! crop).
Proof.
  intros Hflag.
  destruct (combineSeeds_lookup o _ _ _
              (detailedPerCrop_lookup E o Wheat) (detailedPerCrop_lookup E o Seeds))
    as (wheat' & folded & Hfold & -> & _).
  assert (Hm : <[Wheat := wheat']> (detailedPerCrop E o) !! Mushroom
               = Some (CalculateDetailedDrops E Mushroom o)).
  { rewrite lookup_insert_ne by done. apply detailedPerCrop_lookup. }
  pose proof (countMooshroom_lookup o _ _ Hflag Hm) as Hcount. simpl in Hcount.
  eexists _, _, _, _.
  split; [exact Hfold|]. split; [exact Hcount|].
  split; [unfold CalculateDetailedAverageDrops; rewrite Hfold; exact Hcount|].
  split; [exact Hm|]. split; [apply lookup_insert_eq|]. simpl.
  split; [done|].
  split; [apply get_remove_eq|].
  split; [rewrite get_remove_ne by done; apply get_set_eq|].
  split; [intros k H1 H2; by rewrite get_remove_ne, get_set_ne|].
  repeat (split; [done|]).
  intros crop Hne. by rewrite lookup_insert_ne.
Qed.

Lemma mooshroom_folding_frame_witness :
  mooshroom (Sample.detailed 100 100 true true) = true /\
  exists after m,
    CalculateDetailedAverageDrops Sample.env (Sample.detailed 100 100 true true)
      = Some after /\
    after !! Mushroom = Some m /\
    collection m = 300 /\
    get "Mooshroom" (otherCollection m) = Some 100 /\
    get "Mushroom" (otherCollection m) = None.
Proof.
  split; [reflexivity|].
  destruct (mooshroom_folding_frame Sample.env
              (Sample.detailed 100 100 true true) eq_refl)
    as (before & after & m_before & m_after
        & Hseeds & _ & Hafter & Hbefore & Hm & Hc & Hgone & Hnew & _).
  exists after, m_after. split; [exact Hafter|]. split; [exact Hm|].
  vm_compute in Hseeds. injection Hseeds as <-.
  vm_compute in Hbefore. injection Hbefore as <-.
  split; [rewrite Hc; reflexivity|]. split; [rewrite Hnew; reflexivity|exact Hgone].
Defined.

(** * Further properties of the yield model *)

(** A loop that stores [f crop] under every crop of [crops] fills every
    key of the enumeration. *)
Lemma per_crop_lookup {A} (f : Crop -> A) (c : Crop) :
  fold_left (fun result crop => <[crop := f crop]> result) crops
    (∅ : gmap Crop A) !! c
  = Some (f c).
Proof.
  unfold crops. cbn [fold_left].
  destruct c;
    repeat first [ apply lookup_insert_eq | rewrite lookup_insert_ne by done ].
Qed.

(** X1.  [CalculateAverageDrops] returns a mapping with an entry for
    every crop, and the entry of a crop is what [CalculateExpectedDrops]
    gives for that crop with the same options. *)
Theorem average_drops_cover_every_crop E o :
  dom (CalculateAverageDrops E o) = list_to_set crops /\
  forall crop,
    CalculateAverageDrops E o !! crop = Some (CalculateExpectedDrops E crop o).
Proof.
  assert (Hlookup : forall crop,
    CalculateAverageDrops E o !! crop = Some (CalculateExpectedDrops E crop o)).
  { intros crop. unfold CalculateAverageDrops.
    apply (per_crop_lookup (fun c => CalculateExpectedDrops E c o)). }
  split; [|exact Hlookup].
  apply set_eq. intros crop. rewrite elem_of_dom, Hlookup.
  split; [intros _|by eexists].
  apply elem_of_list_to_set. unfold crops. destruct crop; set_solver.
Qed.

(** The guard shared by both calculators. *)
Lemma expected_drops_guard E crop o :
  (nullish (farmingFortune o) (nullish (MAX_CROP_FORTUNE E !! crop) 0) <=? 0)
    || (blocksBroken o <? 0) = true ->
  CalculateExpectedDrops E crop o = 0.
Proof. intros H. unfold CalculateExpectedDrops. by rewrite H. Qed.

Lemma detailed_drops_guard E crop o :
  (nullish (d_farmingFortune o) (nullish (MAX_CROP_FORTUNE E !! crop) 0) <=? 0)
    || (d_blocksBroken o <? 0) = true ->
  CalculateDetailedDrops E crop o
  = {| collection := 0; npcCoins := 0; fortune := 0;
       coinSources := []; otherCollection := [] |}.
Proof. intros H. unfold CalculateDetailedDrops. by rewrite H. Qed.

(** X2.  With a fortune that is given and not positive, or with a
    negative number of blocks broken (whether or not a fortune is given),
    every crop of the averaged mapping is 0; a given fortune that is not
    positive is not replaced by the crop's maximum fortune. *)
Theorem average_drops_zero_without_fortune E o :
  (exists f, farmingFortune o = Some f /\ (f <=? 0) = true)
  \/ (blocksBroken o <? 0) = true ->
  forall crop, CalculateAverageDrops E o !! crop = Some 0.
Proof.
  intros Hguard crop. unfold CalculateAverageDrops.
  rewrite (per_crop_lookup (fun c => CalculateExpectedDrops E c o)).
  f_equal. apply expected_drops_guard.
  destruct Hguard as [(f & Hf & Hle)|Hneg].
  - rewrite Hf. cbn [nullish default from_option id]. by rewrite Hle.
  - rewrite Hneg. apply orb_true_r.
Qed.

Lemma average_drops_zero_without_fortune_witness :
  CalculateAverageDrops Sample.env
    {| farmingFortune := Some (-5); blocksBroken := 100 |} !! Melon = Some 0 /\
  CalculateAverageDrops Sample.env
    {| farmingFortune := None; blocksBroken := -1 |} !! Wheat = Some 0.
Proof.
  split.
  - exact (average_drops_zero_without_fortune Sample.env
             {| farmingFortune := Some (-5); blocksBroken := 100 |}
             (or_introl (ex_intro _ (-5) (conj eq_refl eq_refl))) Melon).
  - exact (average_drops_zero_without_fortune Sample.env
             {| farmingFortune := None; blocksBroken := -1 |}
             (or_intror eq_refl) Wheat).
Defined.

(** X3.  For cactus, wheat, mushroom and sugar cane the [collection] of
    the detailed result is the expected drops of the simple calculator
    for the same fortune and blocks, as long as the detailed calculator
    does not adjust the fortune (the bountiful flag is set, or a non-zero
    fortune is given). *)
Theorem detailed_collection_matches_expected E crop o :
  crop ∈ plainCrops ->
  bountiful o || truthy_opt (d_farmingFortune o) = true ->
  collection (CalculateDetailedDrops E crop o)
  = CalculateExpectedDrops E crop
      {| farmingFortune := d_farmingFortune o; blocksBroken := d_blocksBroken o |}.
Proof.
  intros Hcrop Hplain.
  assert (Hadjust : negb (bountiful o) && negb (truthy_opt (d_farmingFortune o)) = false).
  { by destruct (bountiful o), (truthy_opt (d_farmingFortune o)). }
  unfold CalculateDetailedDrops, CalculateExpectedDrops.
  cbn [farmingFortune blocksBroken]. rewrite Hadjust. clear Hplain Hadjust.
  destruct ((_ <=? 0) || _); [done|].
  destruct (negb (truthy _)); [done|].
  unfold plainCrops in Hcrop.
  repeat (apply elem_of_cons in Hcrop as [->|Hcrop];
          [by destruct (bountiful o), (mooshroom o)|]).
  by apply elem_of_nil in Hcrop.
Qed.

Lemma detailed_collection_matches_expected_witness :
  collection (CalculateDetailedDrops Sample.env Wheat (Sample.detailed 100 100 true true))
  = 200 /\
  CalculateExpectedDrops Sample.env Wheat
    {| farmingFortune := Some 100; blocksBroken := 100 |} = 200.
Proof.
  assert (Hin : Wheat ∈ plainCrops) by (apply (bool_decide_unpack _); reflexivity).
  pose proof (detailed_collection_matches_expected Sample.env Wheat
                (Sample.detailed 100 100 true true) Hin eq_refl) as H.
  split; [rewrite H|]; reflexivity.
Defined.

(** The seed stage, with the wheat entry it writes spelled out. *)
Lemma combineSeeds_Some o result wheat seeds :
  result !! Wheat = Some wheat ->
  result !! Seeds = Some seeds ->
  let seedCollection := collection seeds - d_blocksBroken o in
  let wheatCoins :=
    set "Seeds" (seedCollection * crop_npc (CROP_INFO Seeds)) (coinSources wheat) in
  let wheatCoins :=
    if bountiful o
    then set "Bountiful (Seeds)"
           (nullish (get "Bountiful" (coinSources seeds)) 0) wheatCoins
    else wheatCoins in
  combineSeeds o result
  = Some (<[Wheat :=
             {| collection := collection wheat;
                npcCoins := sum (values wheatCoins);
                fortune := fortune wheat;
                coinSources := wheatCoins;
                otherCollection :=
                  set "Seeds" seedCollection (otherCollection wheat) |}]> result).
Proof. intros Hw Hs. unfold combineSeeds. by rewrite Hw, Hs. Qed.

(** X4.  With a fortune that is given and not positive, every per-crop
    result is the empty one, and yet the seed stage still runs: the wheat
    entry of [CalculateDetailedAverageDrops] carries a ['Seeds']
    collection of [0 - blocksBroken] and the matching (negative) coin
    entry, while every crop other than wheat and mushroom keeps the empty
    result. *)
Theorem detailed_average_without_fortune E o f :
  d_farmingFortune o = Some f ->
  (f <=? 0) = true ->
  let empty := {| collection := 0; npcCoins := 0; fortune := 0;
                  coinSources := []; otherCollection := [] |} in
  let seedCollection := 0 - d_blocksBroken o in
  exists result wheat,
    CalculateDetailedAverageDrops E o = Some result /\
    result !! Wheat = Some wheat /\
    collection wheat = 0 /\
    otherCollection wheat = [("Seeds", seedCollection)] /\
    coinSources wheat
      = ("Seeds", seedCollection * 3)
        :: (if bountiful o then [("Bountiful (Seeds)", 0)] else []) /\
    npcCoins wheat = sum (values (coinSources wheat)) /\
    forall crop, crop ≠ Wheat -> crop ≠ Mushroom -> result !! crop = Some empty.
Proof.
  intros Hf Hle empty seedCollection.
  assert (Hempty : forall crop, detailedPerCrop E o !! crop = Some empty).
  { intros crop. rewrite detailedPerCrop_lookup. f_equal.
    apply detailed_drops_guard. by rewrite Hf; cbn; rewrite Hle. }
  unfold CalculateDetailedAverageDrops.
  rewrite (combineSeeds_Some o _ _ _ (Hempty Wheat) (Hempty Seeds)).
  cbn [mbind option_bind].
  match goal with |- context [countMooshroom o (<[Wheat := ?w]> _)] =>
    set (wheat := w) end.
  assert (Hwheat_fields :
    collection wheat = 0 /\
    otherCollection wheat = [("Seeds", seedCollection)] /\
    coinSources wheat
      = ("Seeds", seedCollection * 3)
        :: (if bountiful o then [("Bountiful (Seeds)", 0)] else []) /\
    npcCoins wheat = sum (values (coinSources wheat))).
  { subst wheat. cbn. by destruct (bountiful o). }
  unfold countMooshroom. destruct (mooshroom o).
  - rewrite lookup_insert_ne, Hempty by done. cbn [mbind option_bind].
    eexists _, wheat. split; [reflexivity|].
    split; [by rewrite lookup_insert_ne, lookup_insert_eq|].
    repeat (split; [apply Hwheat_fields|]).
    intros crop Hw Hm. by rewrite !lookup_insert_ne.
  - eexists _, wheat. split; [reflexivity|].
    split; [by rewrite lookup_insert_eq|].
    repeat (split; [apply Hwheat_fields|]).
    intros crop Hw Hm. by rewrite lookup_insert_ne.
Qed.

Lemma detailed_average_without_fortune_witness :
  exists result wheat,
    CalculateDetailedAverageDrops Sample.env (Sample.detailed 0 100 false false)
      = Some result /\
    result !! Wheat = Some wheat /\
    otherCollection wheat = [("Seeds", -100)] /\
    coinSources wheat = [("Seeds", -300)].
Proof.
  destruct (detailed_average_without_fortune Sample.env
              (Sample.detailed 0 100 false false) 0 eq_refl eq_refl)
    as (result & wheat & Hr & Hw & _ & Hother & Hcoins & _).
  exists result, wheat. split; [exact Hr|]. split; [exact Hw|].
  split; [rewrite Hother|rewrite Hcoins]; reflexivity.
Defined.

(** X5.  With the bountiful flag set, the wheat entry of
    [CalculateDetailedAverageDrops] gains a ['Bountiful (Seeds)'] coin
    entry holding the ['Bountiful'] coin entry of the seeds result, or 0
    when the seeds result has none. *)
Theorem bountiful_seeds_are_copied_to_wheat E o :
  bountiful o = true ->
  exists result wheat,
    CalculateDetailedAverageDrops E o = Some result /\
    result !! Wheat = Some wheat /\
    get "Bountiful (Seeds)" (coinSources wheat)
      = Some (nullish
                (get "Bountiful" (coinSources (CalculateDetailedDrops E Seeds o))) 0).
Proof.
  intros Hb. unfold CalculateDetailedAverageDrops.
  rewrite (combineSeeds_Some o _ _ _
             (detailedPerCrop_lookup E o Wheat) (detailedPerCrop_lookup E o Seeds)).
  cbn [mbind option_bind]. rewrite Hb.
  unfold countMooshroom. destruct (mooshroom o).
  - rewrite lookup_insert_ne, detailedPerCrop_lookup by done.
    cbn [mbind option_bind].
    eexists _, _. split; [reflexivity|].
    split; [by rewrite lookup_insert_ne, lookup_insert_eq|].
    apply get_set_eq.
  - eexists _, _. split; [reflexivity|].
    split; [by rewrite lookup_insert_eq|]. apply get_set_eq.
Qed.

Lemma bountiful_seeds_are_copied_to_wheat_witness :
  exists result wheat,
    CalculateDetailedAverageDrops Sample.env (Sample.detailed 100 100 true false)
      = Some result /\
    result !! Wheat = Some wheat /\
    get "Bountiful (Seeds)" (coinSources wheat) = Some 60.
Proof.
  destruct (bountiful_seeds_are_copied_to_wheat Sample.env
              (Sample.detailed 100 100 true false) eq_refl)
    as (result & wheat & Hr & Hw & Hcoin).
  exists result, wheat. split; [exact Hr|]. split; [exact Hw|].
  rewrite Hcoin. vm_compute. reflexivity.
Defined.

(** X6.  The two switches of [GetFortuneRequiredForCollection] act on
    their own crops only: [useDicers] changes nothing for a crop other
    than pumpkin and melon, [useMooshroom] changes nothing for a crop
    other than mushroom.  Where a switch does act it only lowers the
    target: for mushroom [useMooshroom] amounts to asking for
    [collection - blocksBroken], and for pumpkin [useDicers] amounts to
    asking for [collection - CalculatePumpkinPerkBonus(blocksBroken)]
    (melon likewise), without the switch. *)
Theorem fortune_required_switches E o :
  let plain collection :=
    GetFortuneRequiredForCollection E
      {| r_blocksBroken := r_blocksBroken o; r_crop := r_crop o;
         r_collection := collection; useDicers := None; useMooshroom := None |} in
  (r_crop o ≠ Pumpkin -> r_crop o ≠ Melon ->
   GetFortuneRequiredForCollection E o
   = GetFortuneRequiredForCollection E
       {| r_blocksBroken := r_blocksBroken o; r_crop := r_crop o;
          r_collection := r_collection o;
          useDicers := None; useMooshroom := useMooshroom o |}) /\
  (r_crop o ≠ Mushroom ->
   GetFortuneRequiredForCollection E o
   = GetFortuneRequiredForCollection E
       {| r_blocksBroken := r_blocksBroken o; r_crop := r_crop o;
          r_collection := r_collection o;
          useDicers := useDicers o; useMooshroom := None |}) /\
  (r_crop o = Mushroom -> useMooshroom o = Some true ->
   GetFortuneRequiredForCollection E o
   = plain (r_collection o - r_blocksBroken o)) /\
  (r_crop o = Pumpkin -> useDicers o = Some true ->
   GetFortuneRequiredForCollection E o
   = plain (r_collection o - CalculatePumpkinPerkBonus E (r_blocksBroken o))) /\
  (r_crop o = Melon -> useDicers o = Some true ->
   GetFortuneRequiredForCollection E o
   = plain (r_collection o - CalculateMelonPerkBonus E (r_blocksBroken o))).
Proof.
  intros plain. subst plain. unfold GetFortuneRequiredForCollection. cbn.
  split; [|split; [|split; [|split]]].
  - intros Hp Hm. destruct (nullish (useDicers o) false); [|done].
    by destruct (r_crop o).
  - intros Hm. rewrite bool_decide_eq_false_2 by done.
    by rewrite andb_false_r.
  - intros -> ->. cbn. by destruct (nullish (useDicers o) false).
  - intros -> ->. cbn. by rewrite andb_false_r.
  - intros -> ->. cbn. by rewrite andb_false_r.
Qed.

(** X7.  No crop of the table has a zero or missing price or drop count,
    so the zero guards never decide the result: [GetNPCProfit] is the
    crop's NPC price times the amount for every crop, and a crop's drops
    per break are never what makes the calculators return early. *)
Theorem table_guards_never_fire crop amount :
  GetNPCProfit crop amount = crop_npc (CROP_INFO crop) * amount /\
  truthy (crop_npc (GetCropInfo crop)) = true /\
  truthy (crop_drops (GetCropInfo crop)) = true.
Proof. by destruct crop. Qed.

(** X8.  With the mooshroom flag, a given positive fortune and a
    non-negative number of blocks broken, the mushroom entry of
    [CalculateDetailedAverageDrops] ends with a collection of the expected
    mushroom drops plus one mooshroom mushroom per block,
    [round (blocksBroken)], which is also its ['Mooshroom'] collection
    entry (the special crop of mushrooms not being named "Mushroom"
    itself). *)
Theorem mooshroom_mushrooms_are_counted E o f :
  d_farmingFortune o = Some f ->
  (0 <? f) = true ->
  (0 <=? d_blocksBroken o) = true ->
  mooshroom o = true ->
  sc_type (CalculateAverageSpecialCrops E (d_blocksBroken o) Mushroom 4) ≠ "Mushroom" ->
  exists result mushroom,
    CalculateDetailedAverageDrops E o = Some result /\
    result !! Mushroom = Some mushroom /\
    collection mushroom
      = CalculateExpectedDrops E Mushroom
          {| farmingFortune := Some f; blocksBroken := d_blocksBroken o |}
        + Math_round (d_blocksBroken o * 1) /\
    get "Mooshroom" (otherCollection mushroom)
      = Some (Math_round (d_blocksBroken o * 1)) /\
    get "Mushroom" (otherCollection mushroom) = None.
Proof.
  intros Hfortune Hf Hb Hflag Hspecial.
  assert (Hdrops :
    collection (CalculateDetailedDrops E Mushroom o)
      = CalculateExpectedDrops E Mushroom
          {| farmingFortune := Some f; blocksBroken := d_blocksBroken o |} /\
    get "Mushroom" (otherCollection (CalculateDetailedDrops E Mushroom o))
      = Some (Math_round (d_blocksBroken o * 1))).
  { unfold CalculateDetailedDrops, CalculateExpectedDrops.
    rewrite Hfortune, Hflag.
    cbn [nullish default from_option id truthy_opt farmingFortune blocksBroken].
    rewrite (positive_not_leb _ Hf), (nonnegative_not_ltb _ Hb),
      (positive_truthy _ Hf), andb_false_r.
    cbn [orb negb].
    change (negb (truthy (crop_drops (GetCropInfo Mushroom)))) with false.
    unfold CropInfo_breaks, CropInfo_replenish.
    cbn [nullish default from_option id].
    destruct (bountiful o);
      (split; [reflexivity|];
       cbn -[set get Math_round]; rewrite get_set_ne by done; reflexivity). }
  destruct Hdrops as [Hcollection Hentry].
  unfold CalculateDetailedAverageDrops.
  rewrite (combineSeeds_Some o _ _ _
             (detailedPerCrop_lookup E o Wheat) (detailedPerCrop_lookup E o Seeds)).
  cbn [mbind option_bind].
  rewrite (countMooshroom_lookup o _ (CalculateDetailedDrops E Mushroom o) Hflag)
    by (rewrite lookup_insert_ne by done; apply detailedPerCrop_lookup).
  eexists _, _. split; [reflexivity|].
  split; [apply lookup_insert_eq|]. cbn [collection otherCollection].
  rewrite Hentry, <- Hcollection. cbn [nullish default from_option id].
  split; [done|]. split; [|apply get_remove_eq].
  rewrite get_remove_ne by done. apply get_set_eq.
Qed.

Lemma sample_special_is_not_mushroom :
  sc_type (CalculateAverageSpecialCrops Sample.env 100 Mushroom 4) ≠ "Mushroom".
Proof. apply (bool_decide_unpack _). vm_compute. reflexivity. Qed.

Lemma mooshroom_mushrooms_are_counted_witness :
  exists result mushroom,
    CalculateDetailedAverageDrops Sample.env (Sample.detailed 100 100 false true)
      = Some result /\
    result !! Mushroom = Some mushroom /\
    collection mushroom = 300 /\
    get "Mooshroom" (otherCollection mushroom) = Some 100.
Proof.
  destruct (mooshroom_mushrooms_are_counted Sample.env
              (Sample.detailed 100 100 false true) 100
              eq_refl eq_refl eq_refl eq_refl sample_special_is_not_mushroom)
    as (result & mushroom & Hr & Hm & Hc & Hnew & _).
  exists result, mushroom. split; [exact Hr|]. split; [exact Hm|].
  split; [rewrite Hc|rewrite Hnew]; vm_compute; reflexivity.
Defined.

(** * Further properties of the fortune aggregator *)

(** X9.  [IsValidFarmingTool] (and the static [isValid]) tells exactly
    whether the constructor succeeds: it is [true] when a tool is built
    and [false] when the unknown-tool error is raised, whatever the
    player options.  (Both look the identifier up the same way, so both
    accept a name every object inherits.) *)
Theorem valid_iff_constructible E item options :
  FarmingTool_isValid E item = IsValidFarmingTool E item /\
  (IsValidFarmingTool E item = true <->
   exists t, FarmingTool_new E item options = inr t) /\
  (IsValidFarmingTool E item = false <->
   exists name id, FarmingTool_new E item options = inl (UnknownTool name id)).
Proof.
  split; [done|].
  unfold IsValidFarmingTool, FarmingTool_new, rebuildTool.
  destruct (skyblockId item ≫= _) as [info|].
  - rewrite bool_decide_eq_true_2 by by eexists.
    split; split; try done.
    + intros _. by eexists.
    + by intros (? & ? & ?).
  - rewrite bool_decide_eq_false_2 by by intros [? ?].
    split; split; try done.
    + by intros [? ?].
    + intros _. by eexists _, _.
Qed.

Section RecordKeys.
Context {A : Type}.
Implicit Types (o : record A) (k : string) (v : A).

Lemma get_Some_elem k v o : get k o = Some v -> (k, v) ∈ o.
Proof.
  induction o as [|[k' v'] o IH]; simpl; [done|].
  destruct (decide (k = k')) as [->|Hne].
  - intros [= ->]. left.
  - intros H. right. by apply IH.
Qed.

Lemma get_None_keys k o : get k o = None <-> k ∉ keys o.
Proof.
  unfold keys. induction o as [|[k' v'] o IH]; simpl.
  - split; [intros _; apply not_elem_of_nil|done].
  - rewrite not_elem_of_cons. destruct (decide (k = k')) as [->|Hne].
    + split; [done|]. by intros [? _].
    + rewrite IH. split; [by intros ?; split|by intros [_ ?]].
Qed.

(** Assignment keeps the keys, or appends the new one. *)
Lemma keys_set_present k v o : k ∈ keys o -> keys (set k v o) = keys o.
Proof.
  unfold keys. induction o as [|[k' v'] o IH]; intros Hin.
  - by apply elem_of_nil in Hin.
  - cbn [set]. destruct (decide (k = k')) as [->|Hne]; [done|].
    cbn [fmap list_fmap fst]. f_equal. apply IH.
    by apply elem_of_cons in Hin as [?|?].
Qed.

Lemma keys_set_absent k v o : k ∉ keys o -> keys (set k v o) = keys o ++ [k].
Proof.
  intros Hnin. apply get_None_keys in Hnin.
  rewrite (set_fresh _ _ _ Hnin). unfold keys. by rewrite fmap_app.
Qed.

Lemma NoDup_keys_set k v o : NoDup (keys o) -> NoDup (keys (set k v o)).
Proof.
  intros Hnd. destruct (decide (k ∈ keys o)) as [Hin|Hnin].
  - by rewrite keys_set_present.
  - rewrite keys_set_absent by done.
    apply NoDup_app. split; [done|]. split; [|apply NoDup_singleton].
    intros x Hx ->%list_elem_of_singleton. done.
Qed.

Lemma keys_remove_subseteq k o : keys (remove k o) ⊆ keys o.
Proof.
  unfold keys. induction o as [|[k' v'] o IH]; cbn [remove]; [done|].
  destruct (decide (k = k')); cbn [fmap list_fmap fst].
  - intros x Hx. right. by apply IH.
  - intros x [->|Hx]%elem_of_cons; [left|right; by apply IH].
Qed.

Lemma NoDup_keys_remove k o : NoDup (keys o) -> NoDup (keys (remove k o)).
Proof.
  unfold keys. induction o as [|[k' v'] o IH]; cbn [remove]; [done|].
  cbn [fmap list_fmap fst]. intros [Hnin Hnd]%NoDup_cons.
  destruct (decide (k = k')); cbn [fmap list_fmap fst]; [by apply IH|].
  apply NoDup_cons. split; [|by apply IH].
  intros Hin. apply Hnin. by apply (keys_remove_subseteq k o).
Qed.

End RecordKeys.

(** The entry of a label after a replay is the last value written under
    it, or the entry it had before when nothing was written. *)
Lemma replay_get k log st :
  get k (replay log st).1
  = match get k (reverse log) with Some v => Some v | None => get k st.1 end.
Proof.
  induction log as [|[k' v] log IH] using rev_ind; [done|].
  rewrite replay_app, reverse_app. simpl.
  rewrite get_set. by destruct (decide (k = k')).
Qed.

Lemma replay_NoDup log st :
  NoDup (keys st.1) -> NoDup (keys (replay log st).1).
Proof.
  revert st. induction log as [|[k v] log IH]; intros st Hnd; [done|].
  simpl. apply IH. simpl. by apply NoDup_keys_set.
Qed.

(** X10.  Last write wins: the breakdown entry of a label is the value
    of the last contribution evaluated under that label, and a label has
    an entry exactly when some contribution carries it. *)
Theorem breakdown_keeps_last_write E self item options t k :
  rebuildTool E self item options = inr t ->
  get k (fortuneBreakdown t) = get k (reverse (contributions E t)) /\
  (is_Some (get k (fortuneBreakdown t)) <-> k ∈ (contributions E t).*1).
Proof.
  intros Hbuild. apply sumFortune_replay in Hbuild.
  assert (Hget : get k (fortuneBreakdown t) = get k (reverse (contributions E t))).
  { change (fortuneBreakdown t) with (fortuneBreakdown t, fortune_total t).1.
    rewrite Hbuild, replay_get. by destruct (get k _). }
  split; [exact Hget|]. rewrite Hget.
  rewrite <- not_eq_None_Some, get_None_keys. unfold keys.
  rewrite fmap_reverse, elem_of_reverse.
  split; [apply dec_stable|by intros ? ?].
Qed.

Lemma breakdown_keeps_last_write_witness :
  exists t,
    rebuildTool Sample.env None Sample.dedicatedHoe (Some Sample.player) = inr t /\
    get "Dedication" (fortuneBreakdown t) = Some 5.
Proof.
  eexists. split; [reflexivity|].
  rewrite (proj1 (breakdown_keeps_last_write Sample.env None Sample.dedicatedHoe
                    (Some Sample.player) _ "Dedication" eq_refl)).
  vm_compute. reflexivity.
Defined.

(** X11.  The breakdown of a built tool never lists a label twice. *)
Theorem breakdown_labels_are_unique E self item options t :
  rebuildTool E self item options = inr t ->
  NoDup (keys (fortuneBreakdown t)).
Proof.
  intros Hbuild. apply sumFortune_replay in Hbuild.
  change (fortuneBreakdown t) with (fortuneBreakdown t, fortune_total t).1.
  rewrite Hbuild. apply replay_NoDup. constructor.
Qed.

Lemma breakdown_labels_are_unique_witness :
  exists t,
    rebuildTool Sample.env None Sample.dedicatedHoe (Some Sample.player) = inr t /\
    keys (fortuneBreakdown t) = ["Tool Bonus"; "Tool Stats"; "Dedication"] /\
    NoDup (keys (fortuneBreakdown t)).
Proof.
  eexists. split; [reflexivity|]. split; [vm_compute; reflexivity|].
  exact (breakdown_labels_are_unique Sample.env None Sample.dedicatedHoe
           (Some Sample.player) _ eq_refl).
Defined.

Lemma detailed_keys_unique E crop o :
  NoDup (keys (coinSources (CalculateDetailedDrops E crop o))) /\
  NoDup (keys (otherCollection (CalculateDetailedDrops E crop o))).
Proof.
  unfold CalculateDetailedDrops.
  destruct ((_ <=? 0) || _); [by split; constructor|].
  destruct (negb (truthy _)); [by split; constructor|].
  unfold CropInfo_replenish. cbn [nullish default from_option id].
  destruct (bountiful o), (mooshroom o), crop; cbn -[set Math_round];
    (split; repeat apply NoDup_keys_set; constructor).
Qed.

(** X12.  The [coinSources] and [otherCollection] records never list a
    label twice: not in a result of [CalculateDetailedDrops], and not in
    any entry of [CalculateDetailedAverageDrops] after seeds and
    mooshroom mushrooms have been folded in. *)
Theorem detailed_labels_are_unique E o :
  (forall crop,
     NoDup (keys (coinSources (CalculateDetailedDrops E crop o))) /\
     NoDup (keys (otherCollection (CalculateDetailedDrops E crop o)))) /\
  exists result,
    CalculateDetailedAverageDrops E o = Some result /\
    forall crop d, result !! crop = Some d ->
      NoDup (keys (coinSources d)) /\ NoDup (keys (otherCollection d)).
Proof.
  split; [intros crop; apply detailed_keys_unique|].
  unfold CalculateDetailedAverageDrops.
  rewrite (combineSeeds_Some o _ _ _
             (detailedPerCrop_lookup E o Wheat) (detailedPerCrop_lookup E o Seeds)).
  cbn [mbind option_bind].
  match goal with |- context [countMooshroom o ?m] => set (folded := m) end.
  assert (Hfolded : forall crop d, folded !! crop = Some d ->
    NoDup (keys (coinSources d)) /\ NoDup (keys (otherCollection d))).
  { intros crop d. subst folded.
    destruct (decide (crop = Wheat)) as [->|Hne].
    - rewrite lookup_insert_eq. intros [= <-]. cbn [coinSources otherCollection].
      destruct (detailed_keys_unique E Wheat o) as [Hc Ho].
      split; [|by apply NoDup_keys_set].
      destruct (bountiful o); by repeat apply NoDup_keys_set.
    - rewrite lookup_insert_ne, detailedPerCrop_lookup by done.
      intros [= <-]. apply detailed_keys_unique. }
  unfold countMooshroom. destruct (mooshroom o); [|by eexists].
  destruct (folded !! Mushroom) as [mushroom|] eqn:Hm.
  - cbn [mbind option_bind]. eexists. split; [reflexivity|].
    intros crop d. destruct (decide (crop = Mushroom)) as [->|Hne].
    + rewrite lookup_insert_eq. intros [= <-]. cbn [coinSources otherCollection].
      destruct (Hfolded _ _ Hm) as [Hc Ho].
      split; [done|]. by apply NoDup_keys_remove, NoDup_keys_set.
    + rewrite lookup_insert_ne by done. apply Hfolded.
  - exfalso. subst folded.
    by rewrite lookup_insert_ne, detailedPerCrop_lookup in Hm.
Qed.

Lemma truthy_not_NaN (x : number) : truthy x = true -> isNaN x = false.
Proof. unfold truthy. by destruct (x =? 0), (isNaN x). Qed.

(** X13.  Whatever the item's attribute strings convert to, the
    counters of a built tool are clean: [counter] is either absent or a
    non-zero number that is not NaN, [cultivating] and the [farmed]
    getter are never NaN, and [farmed] is the counter when there is one
    and the cultivating count otherwise. *)
Theorem farmed_is_never_NaN E self item options t :
  rebuildTool E self item options = inr t ->
  (forall c, counter t = Some c -> truthy c = true /\ isNaN c = false) /\
  isNaN (cultivating t) = false /\
  isNaN (farmed t) = false /\
  farmed t = match counter t with Some c => c | None => cultivating t end.
Proof.
  unfold rebuildTool. destruct (skyblockId item ≫= _); [|done].
  intros [= <-]. unfold farmed. cbn.
  assert (Hcounter : forall c, getCounter E item = Some c ->
            truthy c = true /\ isNaN c = false).
  { intros c. unfold getCounter.
    destruct (truthy _) eqn:Ht; [|done]. cbn.
    destruct (isNaN _) eqn:Hn; [done|]. by intros [= <-]. }
  assert (Hcult : isNaN (nullish (getCultivating E item) 0) = false).
  { unfold getCultivating.
    destruct (truthy _) eqn:Ht; [|done]. cbn.
    destruct (isNaN (numericAttribute _ _ _)) eqn:Hn;
      cbn [negb nullish default from_option id]; done. }
  split; [exact Hcounter|]. split; [exact Hcult|]. split; [|done].
  destruct (getCounter E item) as [c|] eqn:Hc; [|exact Hcult].
  by apply Hcounter.
Qed.

Lemma farmed_is_never_NaN_witness :
  exists t,
    rebuildTool Sample.env None Sample.rareHoe None = inr t /\
    isNaN (farmed t) = false.
Proof.
  eexists. split; [reflexivity|].
  exact (proj1 (proj2 (proj2 (farmed_is_never_NaN Sample.env None Sample.rareHoe
                                None _ eq_refl)))).
Defined.

(** X14.  The ability bonus is 0 when the item has no lore or no lore
    line matches the pattern. *)
Theorem ability_is_zero_without_match E item :
  (forall line, line ∈ nullish (lore item) [] ->
     ExtractNumberFromLine E line = None) ->
  getFarmingAbilityFortune E item = 0.
Proof.
  unfold getFarmingAbilityFortune.
  induction (nullish (lore item) []) as [|line lines IH]; intros Hnone; [done|].
  cbn [fold_left]. rewrite (Hnone line) by left.
  change (0 + nullish None 0) with 0. apply IH.
  intros l Hl. apply Hnone. by right.
Qed.

Lemma sample_lore_has_no_match :
  forall line, line ∈ nullish (lore Sample.rareHoe) [] ->
    ExtractNumberFromLine Sample.env line = None.
Proof. done. Qed.

Lemma ability_is_zero_without_match_witness :
  getFarmingAbilityFortune Sample.env Sample.rareHoe = 0.
Proof.
  exact (ability_is_zero_without_match Sample.env Sample.rareHoe
           sample_lore_has_no_match).
Defined.

Lemma enchant_loop_ignores E crop es st :
  Forall (ignoredEnchant E) es ->
  fold_left (enchantStep E crop) es st = st.
Proof.
  intros Hes. revert st. induction Hes as [|[enchant level] es Hx _ IH]; intros st; [done|].
  cbn [fold_left]. rewrite <- (IH st) at 2. f_equal.
  unfold enchantStep. destruct Hx as [Hlevel|[Hturbo Hfarming]]; cbn in *.
  - by rewrite Hlevel.
  - unfold lookupObject. rewrite Hturbo, Hfarming.
    destruct (truthy level); [|done]. cbn. by destruct (decide _).
Qed.

Lemma dedication_ignored E crop item options st :
  Forall (ignoredEnchant E) (nullish (enchantments item) []) ->
  dedicationStep E crop item options st = st.
Proof.
  intros Hes. unfold dedicationStep.
  destruct (_ && _); [|done].
  destruct (get "dedication" _) as [level|] eqn:Hget; [|done].
  destruct (FARMING_ENCHANTS E !! "dedication") as [e|] eqn:He; [|done].
  destruct (truthy level) eqn:Hlevel; [|done].
  apply get_Some_elem in Hget.
  rewrite Forall_forall in Hes. destruct (Hes _ Hget) as [H|[_ H]]; cbn in H; congruence.
Qed.

(** X15.  Enchantments that are at level zero (or NaN) or that neither
    the turbo table nor the farming-enchantment table knows are skipped
    silently: an item carrying only such enchantments gets exactly the
    fortune and the breakdown of the same item without enchantments. *)
Theorem unknown_enchantments_are_ignored E self item options t t' :
  Forall (ignoredEnchant E) (nullish (enchantments item) []) ->
  rebuildTool E self item options = inr t ->
  rebuildTool E self
    {| skyblockId := skyblockId item; item_name := item_name item;
       lore := lore item; enchantments := None;
       attributes := attributes item |} options = inr t' ->
  fortune_total t = fortune_total t' /\
  fortuneBreakdown t = fortuneBreakdown t'.
Proof.
  intros Hes. unfold rebuildTool. cbn [skyblockId].
  destruct (skyblockId item ≫= _); [|done].
  intros [= <-] [= <-]. cbn [fortune_total fortuneBreakdown].
  unfold sumFortune.
  rewrite (dedication_ignored E _ item) by done.
  rewrite enchant_loop_ignores by done.
  rewrite (dedication_ignored E _ {| enchantments := None |}) by constructor.
  cbn. done.
Qed.

Lemma sample_enchantments_are_ignored :
  Forall (ignoredEnchant Sample.env)
    (nullish (enchantments MoreSamples.swordEnchantedHoe) []).
Proof.
  apply Forall_cons. split; [right; by split|].
  apply Forall_cons. split; [by left|]. constructor.
Qed.

Lemma unknown_enchantments_are_ignored_witness :
  exists t t',
    rebuildTool Sample.env None MoreSamples.swordEnchantedHoe None = inr t /\
    rebuildTool Sample.env None
      {| skyblockId := skyblockId MoreSamples.swordEnchantedHoe;
         item_name := item_name MoreSamples.swordEnchantedHoe;
         lore := lore MoreSamples.swordEnchantedHoe;
         enchantments := None;
         attributes := attributes MoreSamples.swordEnchantedHoe |} None = inr t' /\
    fortune_total t = 22 /\
    fortune_total t = fortune_total t'.
Proof.
  eexists _, _. split; [reflexivity|]. split; [reflexivity|].
  split; [reflexivity|].
  exact (proj1 (unknown_enchantments_are_ignored Sample.env None
                  MoreSamples.swordEnchantedHoe None _ _
                  sample_enchantments_are_ignored eq_refl eq_refl)).
Defined.

(** X16.  The player options reach the fortune through one value only,
    the milestone count of the tool's crop, and only when the item has a
    dedication enchantment: two option objects that agree on that
    milestone (or any two, for an item without dedication) give the same
    fortune and the same breakdown. *)
Theorem fortune_uses_the_crop_milestone_only E self item options1 options2 t1 t2 :
  rebuildTool E self item options1 = inr t1 ->
  rebuildTool E self item options2 = inr t2 ->
  crop t1 ≫= (fun c => (options1 ≫= milestones) ≫= (.!! c))
    = crop t1 ≫= (fun c => (options2 ≫= milestones) ≫= (.!! c))
  \/ has "dedication" (nullish (enchantments item) []) = false ->
  fortune_total t1 = fortune_total t2 /\
  fortuneBreakdown t1 = fortuneBreakdown t2.
Proof.
  unfold rebuildTool. destruct (skyblockId item ≫= _) as [info|]; [|done].
  intros [= <-] [= <-]. cbn [crop fortune_total fortuneBreakdown].
  unfold sumFortune, dedicationStep. intros [Hm | Hd]; [by rewrite Hm|]. rewrite Hd.
  by rewrite !andb_false_r.
Qed.

Lemma fortune_uses_the_crop_milestone_only_witness :
  exists t1 t2,
    rebuildTool Sample.env None Sample.rareHoe None = inr t1 /\
    rebuildTool Sample.env None Sample.rareHoe (Some Sample.player) = inr t2 /\
    fortune_total t1 = 136 /\ fortune_total t2 = 136.
Proof.
  eexists _, _. split; [reflexivity|]. split; [reflexivity|].
  split; [reflexivity|].
  rewrite <- (proj1 (fortune_uses_the_crop_milestone_only Sample.env None
                       Sample.rareHoe None (Some Sample.player) _ _
                       eq_refl eq_refl (or_intror eq_refl))).
  reflexivity.
Defined.

Lemma contribution_is_checked E t k v :
  (k, v) ∈ contributions E t ->
  (0 <? v) = true \/ k = "Turbo" \/
  exists e, FARMING_ENCHANTS E !! "dedication" = Some e /\ k = enchant_name e.
Proof.
  unfold contributions. rewrite !elem_of_app.
  assert (Hguarded : forall label x, (k, v) ∈ guarded label x -> (0 <? v) = true).
  { intros label x. unfold guarded. destruct (0 <? x) eqn:Hx; [|by intros ?%elem_of_nil].
    by intros [= _ ->]%list_elem_of_singleton. }
  intros [Hw|[Hw|[Hw|[Hw|[Hw|[Hw|Hw]]]]]]; try (left; by eapply Hguarded).
  - destruct (decide _); [left; by eapply Hguarded|by apply elem_of_nil in Hw].
  - apply list_elem_of_In, in_flat_map in Hw as ([enchant level] & _ & Hw).
    apply list_elem_of_In in Hw. unfold enchantWrites in Hw.
    destruct (truthy level); cbn in Hw; [|by apply elem_of_nil in Hw].
    destruct (lookupObject (TURBO_ENCHANTS E) enchant) as [[c|?]|];
      [|by apply elem_of_nil in Hw|].
    + destruct (decide _); [|by apply elem_of_nil in Hw].
      apply list_elem_of_singleton in Hw as [= -> _]. by right; left.
    + destruct (lookupObject (FARMING_ENCHANTS E) enchant) as [[e|?]|];
        [|by apply elem_of_nil in Hw..].
      destruct (0 <? farmingFortuneOf _ _) eqn:Hpos; [|by apply elem_of_nil in Hw].
      apply list_elem_of_singleton in Hw as [= _ ->]. by left.
  - unfold dedicationWrites in Hw.
    destruct (_ && _); [|by apply elem_of_nil in Hw].
    destruct (get _ _) as [level|]; [|by apply elem_of_nil in Hw].
    destruct (FARMING_ENCHANTS E !! _) as [e|] eqn:He; [|by apply elem_of_nil in Hw].
    destruct (truthy level); [|by apply elem_of_nil in Hw].
    destruct (_ && _); [|by apply elem_of_nil in Hw].
    apply list_elem_of_singleton in Hw as [= -> _]. right; right. by exists e.
Qed.

(** X17.  Every entry of the breakdown is strictly positive, with two
    exceptions the code does not check: the "Turbo" entry (the level is
    only tested for being non-zero) and the entry under the dedication
    enchantment's name (the milestone count is only tested for being
    non-zero and not NaN). *)
Theorem breakdown_entries_are_positive E self item options t k v :
  rebuildTool E self item options = inr t ->
  get k (fortuneBreakdown t) = Some v ->
  (0 <? v) = true \/ k = "Turbo" \/
  exists e, FARMING_ENCHANTS E !! "dedication" = Some e /\ k = enchant_name e.
Proof.
  intros Hbuild Hget. apply sumFortune_replay in Hbuild.
  change (fortuneBreakdown t) with (fortuneBreakdown t, fortune_total t).1 in Hget.
  rewrite Hbuild, replay_get in Hget.
  destruct (get k (reverse (contributions E t))) as [v'|] eqn:Hlast; [|done].
  injection Hget as ->. apply get_Some_elem in Hlast.
  rewrite elem_of_reverse in Hlast.
  by eapply contribution_is_checked.
Qed.

Lemma breakdown_entries_are_positive_witness :
  exists t,
    rebuildTool Sample.env None Sample.rareHoe None = inr t /\
    get "Harvesting" (fortuneBreakdown t) = Some 75 /\
    (0 <? 75) = true.
Proof.
  eexists. split; [reflexivity|]. split; [reflexivity|].
  destruct (breakdown_entries_are_positive Sample.env None Sample.rareHoe None _
              "Harvesting" 75 eq_refl eq_refl) as [H|[H|(e & _ & H)]].
  - exact H.
  - discriminate H.
  - reflexivity.
Defined.

(** X18.  [setReforge] recomputes the reforge and its stat row from the
    tool's stated rarity, exactly as [rebuildTool] does: calling it with
    the item's own modifier leaves a built tool as it is.  It never
    re-sums: whatever the id, the stored fortune and breakdown stay those
    of the last [rebuildTool].  An id that is not a key of the reforge
    table clears the reforge stats; it clears the reforge as well, unless
    it is a name every object inherits, for which the inherited value is
    stored. *)
Theorem setReforge_recomputes_the_reforge_only E self item options t reforgeId :
  rebuildTool E self item options = inr t ->
  setReforge E t (nullish (attribute item "modifier") "") = t /\
  fortune_total (setReforge E t reforgeId) = fortune_total t /\
  fortuneBreakdown (setReforge E t reforgeId) = fortuneBreakdown t /\
  (forall r, REFORGES E !! reforgeId = Some r ->
     reforge (setReforge E t reforgeId) = Some r /\
     reforgeStats (setReforge E t reforgeId) = rarity t ≫= (tiers r !!.)) /\
  (REFORGES E !! reforgeId = None ->
     reforgeStats (setReforge E t reforgeId) = None /\
     (reforgeId ∉ ObjectPrototype -> reforge (setReforge E t reforgeId) = None) /\
     (reforgeId ∈ ObjectPrototype ->
      reforge (setReforge E t reforgeId) = Some (inheritedReforge reforgeId))).
Proof.
  unfold rebuildTool. destruct (skyblockId item ≫= _) as [found|]; [|done].
  intros [= <-]. unfold setReforge. cbn [reforge reforgeStats rarity
    fortune_total fortuneBreakdown].
  split; [done|]. split; [done|]. split; [done|]. split.
  - intros r Hr. by rewrite (lookupObject_own _ _ _ Hr).
  - intros Hnone. destruct (decide (reforgeId ∈ ObjectPrototype)) as [Hin|Hnot].
    + rewrite lookupObject_inherited by done. cbn.
      split; [|by split].
      destruct (match lore item with Some _ => _ | None => _ end); [|done].
      apply lookup_empty.
    + rewrite lookupObject_missing by done. by split.
Qed.

Lemma setReforge_recomputes_the_reforge_only_witness :
  exists t,
    rebuildTool Sample.env None Sample.rareHoe None = inr t /\
    reforgeStats (setReforge Sample.env t "bountiful")
      = Some {| tier_stats := Some {[ Sample.FF := 3 ]} |} /\
    fortune_total (setReforge Sample.env t "bountiful") = 136 /\
    reforge (setReforge Sample.env t "constructor")
      = Some {| reforge_name := Some "Object"; tiers := ∅ |}.
Proof.
  eexists. split; [reflexivity|]. split; [vm_compute; reflexivity|].
  split.
  - rewrite (proj1 (proj2 (setReforge_recomputes_the_reforge_only Sample.env None
                             Sample.rareHoe None _ "bountiful" eq_refl))).
    reflexivity.
  - vm_compute. reflexivity.
Defined.
